(** * Bots-Hub: authorization and upvote cooldown of [app.py]

    A shallow embedding of the two pieces of logic of the Flask application
    [src/app.py] that carry invariants: the permission predicates
    ([is_admin], [is_bot_owner], [can_edit_bot], [can_delete_bot]) and the
    rate-limited upvote ([upvote_bot], with the read-only cooldown hint of
    [bot_detail]).

    Conventions of the embedding.
    - A Python value that the code passes to [str()] is a [PyVal]; [py_str]
      is [str()] on it.
    - The session user is the JSON object stored under [session["user"]]:
      a finite map from field names to values, absent when nobody is logged
      in.
    - A naive [datetime] is the number of microseconds since an arbitrary
      origin, a [timedelta] a signed number of microseconds; both are [Z].
      The range limits of [datetime] (years 1 to 9999) are not modelled.
    - The module-level dictionary [user_votes], the [bot] table and the
      flashed messages form the [State] that handlers thread through. *)

From stdpp Require Import gmap strings pretty.

#[local] Open Scope Z_scope.

(** ** Python values and [str()] *)

Inductive PyVal : Type :=
  | PyNone
  | PyBool (b : bool)
  | PyInt (n : Z)
  | PyStr (s : string).

#[global] Instance PyVal_eq_dec : EqDecision PyVal.
Proof. solve_decision. Defined.

(** [str(v)] *)
Definition py_str (v : PyVal) : string :=
  match v with
  | PyNone => "None"
  | PyBool true => "True"
  | PyBool false => "False"
  | PyInt n => pretty n
  | PyStr s => s
  end.

(** The session user: a JSON object. *)
Abbreviation User := (gmap string PyVal).

(** [user.get(k)]: the value, or [None] when the key is missing. *)
Definition dict_get (user : User) (k : string) : PyVal :=
  default PyNone (user !! k).

(** Truth value of [user] in [if not user]: [None] and the empty dict are
    false. *)
Definition user_truthy (user : option User) : bool :=
  match user with
  | None => false
  | Some u => bool_decide (u ≠ ∅)
  end.

(** ** The [Bot] model (lines 30-47) *)

Module Bot.
Record t : Type := mk {
  id : string;
  name : string;
  avatar_url : option string;
  banner_url : option string;
  description : option string;
  short_description : option string;
  prefix : option string;
  website : option string;
  support_server : option string;
  invite_link : option string;
  tags : option string;
  owner_id : PyVal;
  owner_name : string;
  added_date : option string;
  upvotes : option Z;
  server_count : option Z;
  certified : option bool
}.

(** [bot.upvotes = n] *)
Definition set_upvotes (b : t) (n : Z) : t :=
  mk (id b) (name b) (avatar_url b) (banner_url b) (description b)
     (short_description b) (prefix b) (website b) (support_server b)
     (invite_link b) (tags b) (owner_id b) (owner_name b) (added_date b)
     (Some n) (server_count b) (certified b).
End Bot.

(** [x or 0] on a nullable integer column. *)
Definition or_zero (x : option Z) : Z :=
  match x with
  | None => 0
  | Some n => n
  end.

(** ** Time *)

Definition COOLDOWN_HOURS : Z := 6.

(** [timedelta(hours=h)], in microseconds. *)
Definition timedelta_hours (h : Z) : Z := h * 3600 * 1000000.

(** [td.seconds]: the seconds field of the normalised
    (days, seconds, microseconds) representation of a [timedelta]. *)
Definition timedelta_seconds (td : Z) : Z := (td / 1000000) mod 86400.

(** Lines 136-138 and 316-318:
    [hours, remainder = divmod(cooldown_left.seconds, 3600)],
    [minutes = remainder // 60], [f"{hours}h {minutes}m"]. *)
Definition cooldown_hm (cooldown_left : Z) : Z * Z :=
  let '(hours, remainder) := Z.div_eucl (timedelta_seconds cooldown_left) 3600 in
  let minutes := remainder / 60 in
  (hours, minutes).

Definition cooldown_msg (cooldown_left : Z) : string :=
  let '(hours, minutes) := cooldown_hm cooldown_left in
  pretty hours +:+ "h " +:+ pretty minutes +:+ "m".

(** ** State and results *)

Record State : Type := mkState {
  db : gmap string Bot.t;
  user_votes : gmap (string * string) Z;
  flashes : list (string * string)
}.

Inductive Exc : Type :=
  | KeyError (k : string)
  | AttributeError
  | ValueError
  | OverflowError
  | IntegrityError.

Inductive Outcome (A : Type) : Type :=
  | Return (a : A)
  | Raise (e : Exc).
Arguments Return {A} a.
Arguments Raise {A} e.

(** Bodies passed to [jsonify]. *)
Inductive Body : Type :=
  | ErrorBody (msg : string)
  | UpvotesBody (n : option Z).

(** A [(jsonify(body), status)] pair. *)
Definition JsonResponse : Type := Body * Z.

Definition status_of (r : Outcome JsonResponse) : option Z :=
  match r with
  | Return (_, st) => Some st
  | Raise _ => None
  end.

(** An [Integer] column holds a signed 64-bit value: storing another one
    makes [db.session.commit()] raise [OverflowError]. *)
Definition fits_integer (n : Z) : bool :=
  bool_decide (- 2 ^ 63 ≤ n < 2 ^ 63).

(** [(str(user_id), str(bot_id))], lines 129 and 311. *)
Definition vote_key (user_id bot_id : PyVal) : string * string :=
  (py_str user_id, py_str bot_id).

(** Template arguments of [bot_detail.html] that depend on the actor and on
    the stores. The rendered description and the tag list are computed from
    the bot row alone, by the markdown library and [str.split], after the
    cooldown hint; they are left out of the record. What is kept of line 139
    is that [md.markdown] raises [AttributeError] on a description that is
    [None]. *)
Record DetailCtx : Type := mkCtx {
  ctx_bot : Bot.t;
  ctx_user : option User;
  ctx_is_admin : bool;
  ctx_can_edit : bool;
  ctx_can_delete : bool;
  ctx_can_vote : bool;
  ctx_cooldown_msg : option string
}.

Inductive Page : Type :=
  | Redirect (endpoint : string)
  | Render (template : string) (ctx : DetailCtx).

Section App.

(** [SITE_ADMIN_ID = os.getenv("SITE_ADMIN_ID")]: a string, or [None]
    when the variable is unset. *)
Variable SITE_ADMIN_ID : option string.

(** *** Authorization (lines 49-63) *)

Definition is_admin (user : option User) : bool :=
  match user with
  | None => false
  | Some u =>
      if negb (user_truthy user) then false
      else bool_decide (Some (py_str (dict_get u "id")) = SITE_ADMIN_ID)
  end.

Definition is_bot_owner (bot : option Bot.t) (user : option User) : bool :=
  match user, bot with
  | Some u, Some b =>
      if negb (user_truthy user) then false
      else bool_decide (py_str (Bot.owner_id b) = py_str (dict_get u "id"))
  | _, _ => false
  end.

Definition can_edit_bot (bot : option Bot.t) (user : option User) : bool :=
  is_admin user || is_bot_owner bot user.

Definition can_delete_bot (bot : option Bot.t) (user : option User) : bool :=
  is_admin user || is_bot_owner bot user.

(** *** Upvote with cooldown (lines 300-324)

    Line 322 writes [user_votes[key]] before line 323 commits the new
    count: when the commit raises because the count no longer fits the
    column, the entry is written, the row is not, and no answer is given. *)

Definition upvote_bot (session : option User) (bot_id : string) (now : Z)
    (s : State) : Outcome JsonResponse * State :=
  match session with
  | None => (Return (ErrorBody "Login required", 401), s)
  | Some user =>
      match db s !! bot_id with
      | None => (Return (ErrorBody "Bot not found", 404), s)
      | Some bot =>
          match user !! "id" with
          | None => (Raise (KeyError "id"), s)
          | Some user_id =>
              let key := vote_key user_id (PyStr bot_id) in
              let last_vote := user_votes s !! key in
              let accept :=
                let bot' := Bot.set_upvotes bot (or_zero (Bot.upvotes bot) + 1) in
                let votes' := <[key := now]> (user_votes s) in
                if fits_integer (or_zero (Bot.upvotes bot) + 1) then
                  (Return (UpvotesBody (Bot.upvotes bot'), 200),
                   mkState (<[bot_id := bot']> (db s)) votes' (flashes s))
                else
                  (Raise OverflowError, mkState (db s) votes' (flashes s)) in
              match last_vote with
              | Some lv =>
                  if bool_decide (now - lv < timedelta_hours COOLDOWN_HOURS) then
                    let cooldown_left := lv + timedelta_hours COOLDOWN_HOURS - now in
                    (Return (ErrorBody ("Cooldown: next vote in "
                                        +:+ cooldown_msg cooldown_left), 403), s)
                  else accept
              | None => accept
              end
          end
      end
  end.

(** *** Bot details (lines 118-153) *)

(** Lines 126-138: the pair [(can_vote, cooldown_msg)]. *)
Definition vote_hint (user : option User) (bot_id : string) (now : Z)
    (s : State) : Outcome (bool * option string) :=
  match user with
  | Some u =>
      if user_truthy user then
        match u !! "id" with
        | None => Raise (KeyError "id")
        | Some user_id =>
            let key := vote_key user_id (PyStr bot_id) in
            match user_votes s !! key with
            | Some last_vote =>
                if bool_decide (now - last_vote < timedelta_hours COOLDOWN_HOURS) then
                  let cooldown_left :=
                    last_vote + timedelta_hours COOLDOWN_HOURS - now in
                  Return (false, Some (cooldown_msg cooldown_left))
                else Return (true, None)
            | None => Return (true, None)
            end
        end
      else Return (true, None)
  | None => Return (true, None)
  end.

Definition bot_detail (session : option User) (bot_id : string) (now : Z)
    (s : State) : Outcome Page * State :=
  match db s !! bot_id with
  | None =>
      (Return (Redirect "index"),
       mkState (db s) (user_votes s) (flashes s ++ [("Bot not found.", "error")]))
  | Some bot =>
      let user := session in
      match vote_hint user bot_id now s with
      | Raise e => (Raise e, s)
      | Return (can_vote, msg) =>
          match Bot.description bot with
          | None => (Raise AttributeError, s)
          | Some _ =>
              (Return (Render "bot_detail.html"
                         (mkCtx bot user (is_admin user)
                                (can_edit_bot (Some bot) user)
                                (can_delete_bot (Some bot) user)
                                can_vote msg)),
               s)
          end
      end
  end.

(** *** Two upvote requests served by two threads

    [app.run] serves requests from concurrent threads and [upvote_bot]
    takes no lock, so a thread may be preempted between any two
    statements. The handler is cut at the one point that matters for the
    cooldown store: after line 313 (the read [user_votes.get(key)]) and
    before line 314 (the check on the value read, followed by the write
    of line 322). [bot], [key], [now] and [last_vote] are locals of the
    thread; the commit of line 323 stores the thread's copy of the row with
    its new count, or raises when that count does not fit the column. *)

Inductive Pc : Type :=
  | AtEntry (session : option User) (bot_id : string) (now : Z)
  | AfterRead (bot : Bot.t) (bot_id : string) (key : string * string)
      (now : Z) (last_vote : option Z)
  | Finished (r : Outcome JsonResponse).

(** Lines 302-313. *)
Definition upvote_read (session : option User) (bot_id : string) (now : Z)
    (s : State) : Pc :=
  match session with
  | None => Finished (Return (ErrorBody "Login required", 401))
  | Some user =>
      match db s !! bot_id with
      | None => Finished (Return (ErrorBody "Bot not found", 404))
      | Some bot =>
          match user !! "id" with
          | None => Finished (Raise (KeyError "id"))
          | Some user_id =>
              let key := vote_key user_id (PyStr bot_id) in
              AfterRead bot bot_id key now (user_votes s !! key)
          end
      end
  end.

(** Lines 314-324, on the locals left by [upvote_read]. *)
Definition upvote_check_write (bot : Bot.t) (bot_id : string)
    (key : string * string) (now : Z) (last_vote : option Z)
    (s : State) : Outcome JsonResponse * State :=
  let accept :=
    let bot' := Bot.set_upvotes bot (or_zero (Bot.upvotes bot) + 1) in
    let votes' := <[key := now]> (user_votes s) in
    if fits_integer (or_zero (Bot.upvotes bot) + 1) then
      (Return (UpvotesBody (Bot.upvotes bot'), 200),
       mkState (<[bot_id := bot']> (db s)) votes' (flashes s))
    else
      (Raise OverflowError, mkState (db s) votes' (flashes s)) in
  match last_vote with
  | Some lv =>
      if bool_decide (now - lv < timedelta_hours COOLDOWN_HOURS) then
        let cooldown_left := lv + timedelta_hours COOLDOWN_HOURS - now in
        (Return (ErrorBody ("Cooldown: next vote in "
                            +:+ cooldown_msg cooldown_left), 403), s)
      else accept
  | None => accept
  end.

Definition upvote_step (pc : Pc) (s : State) : Pc * State :=
  match pc with
  | AtEntry session bot_id now => (upvote_read session bot_id now s, s)
  | AfterRead bot bot_id key now last_vote =>
      let '(r, s') := upvote_check_write bot bot_id key now last_vote s in
      (Finished r, s')
  | Finished r => (pc, s)
  end.

Inductive Tid : Type := T1 | T2.

Record Config : Type := mkConfig {
  shared : State;
  pc1 : Pc;
  pc2 : Pc
}.

(** The scheduler lets thread [t] run up to its next cut point. *)
Definition sched_step (t : Tid) (c : Config) : Config :=
  match t with
  | T1 => let '(pc, s) := upvote_step (pc1 c) (shared c) in mkConfig s pc (pc2 c)
  | T2 => let '(pc, s) := upvote_step (pc2 c) (shared c) in mkConfig s (pc1 c) pc
  end.

Fixpoint run (schedule : list Tid) (c : Config) : Config :=
  match schedule with
  | [] => c
  | t :: schedule' => run schedule' (sched_step t c)
  end.

(** A schedule in which one request is served from start to end before
    the other starts. *)
Definition serial (schedule : list Tid) : bool :=
  match schedule with
  | [T1; T1; T2; T2] | [T2; T2; T1; T1] => true
  | _ => false
  end.

(** The response of a thread, once it has one. *)
Definition response (pc : Pc) : option (Outcome JsonResponse) :=
  match pc with
  | Finished r => Some r
  | _ => None
  end.

Definition accepted (pc : Pc) : bool :=
  bool_decide (response pc ≫= status_of = Some 200).

Definition rejected (pc : Pc) : bool :=
  bool_decide (response pc ≫= status_of = Some 403).

End App.

(** ** The other handlers of [app.py]

    What follows models the handlers that list, change and remove bots and
    that manage the session. Values that come from outside the program are
    arguments: the submitted form, the reply of the Discord API to the one
    request a handler sends, the clock. *)

(** Truth value of a JSON scalar ([if not v]). *)
Definition py_truthy (v : PyVal) : bool :=
  match v with
  | PyNone => false
  | PyBool b => b
  | PyInt n => bool_decide (n ≠ 0)
  | PyStr s => bool_decide (s ≠ "")
  end.

(** Truth value of a nullable string ([bot.tags], [code]). *)
Definition str_truthy (x : option string) : bool :=
  match x with
  | Some s => bool_decide (s ≠ "")
  | None => false
  end.

(** [str(x)] inside an f-string, for a nullable string. *)
Definition opt_str (x : option string) : string :=
  match x with
  | Some s => s
  | None => "None"
  end.

(** *** Submitted forms

    [request.form] is a multi-dict: every key holds the list of the values
    submitted under it. *)
Abbreviation Form := (gmap string (list string)).

(** [form.get(k)]: the first value, [None] when there is none. *)
Definition form_get (form : Form) (k : string) : option string :=
  match form !! k with
  | Some (v :: _) => Some v
  | _ => None
  end.

(** [form.get(k, d)] *)
Definition form_get_default (form : Form) (k d : string) : string :=
  default d (form_get form k).

(** [form.getlist(k)] *)
Definition form_getlist (form : Form) (k : string) : list string :=
  default [] (form !! k).

(** [k in form] *)
Definition form_contains (form : Form) (k : string) : bool :=
  bool_decide (is_Some (form !! k)).

(** *** Tags as a comma-separated string *)

(** [",".join(l)] *)
Fixpoint join_comma (l : list string) : string :=
  match l with
  | [] => ""
  | [x] => x
  | x :: l' => x +:+ "," +:+ join_comma l'
  end.

(** The character [","]. *)
Definition comma : Ascii.ascii := Ascii.ascii_of_nat 44.

(** [s.split(",")] *)
Fixpoint split_comma (s : string) : list string :=
  match s with
  | EmptyString => [""]
  | String c s' =>
      if bool_decide (c = comma) then "" :: split_comma s'
      else
        match split_comma s' with
        | h :: t => String c h :: t
        | [] => [String c ""]
        end
  end.

(** A string without a comma. *)
Fixpoint comma_free (s : string) : bool :=
  match s with
  | EmptyString => true
  | String c s' => negb (bool_decide (c = comma)) && comma_free s'
  end.

(** [bot.tags.split(",") if bot.tags else []], lines 141 and 268. *)
Definition bot_tags (tags : option string) : list string :=
  if str_truthy tags then split_comma (opt_str tags) else [].

(** Lines 219-224 and 262-267. *)
Definition predefined_tags : list string :=
  ["Moderation"; "Music"; "Fun"; "Utility"; "Games"; "Economy";
   "Leveling"; "Logging"; "Social"; "Auto-Moderation"; "Welcomer";
   "Tickets"; "Analytics"; "RPG"; "Anime"; "Memes"; "NSFW";
   "Productivity"; "Dashboard"; "AI"; "Crypto"; "NFT"; "Multipurpose"].

(** *** Results *)

Inductive Reply (A : Type) : Type :=
  | Ok (a : A)
  | Err (e : Exc).
Arguments Ok {A} a.
Arguments Err {A} e.

Inductive View : Type :=
  | RedirectTo (endpoint : string)
  | RedirectToBot (bot_id : string)
  | RenderAdd (tags : list string) (user : option User)
  | RenderEdit (bot : Bot.t) (tags tags_of_bot : list string)
      (user : option User) (admin : bool).

(** [flash(message, category)] *)
Definition flash (s : State) (message category : string) : State :=
  mkState (db s) (user_votes s) (flashes s ++ [(message, category)]).

(** The state with another [bot] table. *)
Definition with_db (s : State) (d : gmap string Bot.t) : State :=
  mkState d (user_votes s) (flashes s).

(** The reply to a request sent to the Discord API: [r.status_code] and
    [r.json()]. *)
Record HttpReply : Type := mkReply {
  status_code : Z;
  json : gmap string PyVal
}.

(** Lines 190 and 192:
    [f"https://cdn.discordapp.com/{kind}/{bot_id}/{hash}.png" if hash else None]. *)
Definition cdn_url (kind : string) (bot_id : string) (hash : PyVal)
    : option string :=
  if py_truthy hash then
    Some ("https://cdn.discordapp.com/" +:+ kind +:+ "/" +:+ bot_id +:+ "/"
          +:+ py_str hash +:+ ".png")
  else None.

(** Lines 245-251: the fields every editor may set. *)
Definition set_listing (b : Bot.t) (form : Form) : Bot.t :=
  Bot.mk (Bot.id b) (Bot.name b) (Bot.avatar_url b) (Bot.banner_url b)
    (form_get form "description")
    (form_get form "short_description")
    (Some (form_get_default form "prefix" "!"))
    (Some (form_get_default form "website" ""))
    (Some (form_get_default form "support_server" ""))
    (Some (form_get_default form "invite_link" ""))
    (Some (join_comma (form_getlist form "tags")))
    (Bot.owner_id b) (Bot.owner_name b) (Bot.added_date b) (Bot.upvotes b)
    (Bot.server_count b) (Bot.certified b).

(** Lines 254-255: the fields the administrator sets. *)
Definition set_admin_fields (b : Bot.t) (certified : bool) (server_count : Z)
    : Bot.t :=
  Bot.mk (Bot.id b) (Bot.name b) (Bot.avatar_url b) (Bot.banner_url b)
    (Bot.description b) (Bot.short_description b) (Bot.prefix b)
    (Bot.website b) (Bot.support_server b) (Bot.invite_link b) (Bot.tags b)
    (Bot.owner_id b) (Bot.owner_name b) (Bot.added_date b) (Bot.upvotes b)
    (Some server_count) (Some certified).

(** *** Order of the home page (lines 102-105)

    [bots.sort(key=lambda x: x.upvotes or 0, reverse=True)] is a stable
    sort into non-increasing order of the key; it is modelled by the stable
    insertion sort. *)
Fixpoint insert_desc {A : Type} (key : A → Z) (x : A) (l : list A) : list A :=
  match l with
  | [] => [x]
  | y :: l' =>
      if bool_decide (key y ≤ key x) then x :: y :: l'
      else y :: insert_desc key x l'
  end.

Definition sort_desc {A : Type} (key : A → Z) (l : list A) : list A :=
  foldr (insert_desc key) [] l.

Definition popularity (b : Bot.t) : Z := or_zero (Bot.upvotes b).

(** A list in non-increasing order of [key]. *)
Definition descending {A : Type} (key : A → Z) (l : list A) : Prop :=
  ∀ (i j : nat) a b,
    (i < j)%nat → l !! i = Some a → l !! j = Some b → key b ≤ key a.

(** [bots] is the result of the query, [sort_by] the [sort] argument. *)
Definition index_order (sort_by : string) (bots : list Bot.t) : list Bot.t :=
  if bool_decide (sort_by = "oldest") then reverse bots
  else if bool_decide (sort_by = "popular") then sort_desc popularity bots
  else bots.

(** *** Bot information for the submission form (lines 65-86) *)

Inductive InfoBody : Type :=
  | InfoError (msg : string)
  | InfoBot (username : PyVal) (avatar_url : string).

Definition api_fetch_bot_info (session : option User) (bot_id : string)
    (r : HttpReply) : InfoBody * Z :=
  match session with
  | None => (InfoError "Unauthorized", 401)
  | Some _ =>
      if bool_decide (status_code r ≠ 200) then (InfoError "Bot not found", 404)
      else
        let data := json r in
        if negb (py_truthy (dict_get data "bot")) then
          (InfoError "This ID belongs to a user, not a bot", 400)
        else
          let avatar_hash := dict_get data "avatar" in
          let avatar_url := cdn_url "avatars" bot_id avatar_hash in
          (InfoBot (dict_get data "username")
             (if str_truthy avatar_url then opt_str avatar_url
              else "https://cdn.discordapp.com/embed/avatars/0.png"),
           200)
  end.

(** *** Session (lines 339-379)

    [callback] and [logout] change the session user; they return the new
    one. *)

Definition callback (code : option string) (token_reply user_reply : HttpReply)
    (session : option User) (s : State)
    : Reply View * option User * State :=
  if negb (str_truthy code) then
    (Ok (RedirectTo "index"), session, flash s "Authentication failed." "error")
  else if bool_decide (status_code token_reply ≠ 200) then
    (Ok (RedirectTo "index"), session, flash s "Authentication failed." "error")
  else
    match json token_reply !! "access_token" with
    | None => (Err (KeyError "access_token"), session, s)
    | Some _ =>
        if bool_decide (status_code user_reply ≠ 200) then
          (Ok (RedirectTo "index"), session,
           flash s "Failed to fetch user data." "error")
        else
          (Ok (RedirectTo "index"), Some (json user_reply),
           flash s "Successfully logged in!" "success")
    end.

Definition logout (session : option User) (s : State)
    : View * option User * State :=
  (RedirectTo "index", None, flash s "Logged out successfully." "info").

Section Handlers.

Variable SITE_ADMIN_ID : option string.

(** [int(x)] on a submitted string: the integer, or nothing when [int]
    raises [ValueError]. *)
Variable py_int : string → option Z.

(** What a [String] column holds once a Python value has been stored in it
    and read back; nothing for NULL. *)
Variable column_text : PyVal → option string.

(** *** Delete bot (lines 278-297) *)

Definition delete_bot (session : option User) (bot_id : string) (s : State)
    : View * State :=
  match session with
  | None => (RedirectTo "login", flash s "Please login to delete bots." "error")
  | Some _ =>
      match db s !! bot_id with
      | None => (RedirectTo "index", flash s "Bot not found." "error")
      | Some bot =>
          let user := session in
          if negb (can_delete_bot SITE_ADMIN_ID (Some bot) user) then
            (RedirectToBot bot_id,
             flash s "You don't have permission to delete this bot." "error")
          else
            (RedirectTo "index",
             flash (with_db s (delete bot_id (db s)))
                   "Bot deleted successfully!" "success")
      end
  end.

(** *** Edit bot (lines 228-275) *)

(** Line 255: [int(request.form.get("server_count", 0))]. *)
Definition form_server_count (form : Form) : Reply Z :=
  match form_get form "server_count" with
  | None => Ok 0
  | Some x =>
      match py_int x with
      | Some n => Ok n
      | None => Err ValueError
      end
  end.

Definition edit_bot (session : option User) (method : string) (form : Form)
    (bot_id : string) (s : State) : Reply View * State :=
  match session with
  | None => (Ok (RedirectTo "login"), flash s "Please login to edit bots." "error")
  | Some _ =>
      match db s !! bot_id with
      | None => (Ok (RedirectTo "index"), flash s "Bot not found." "error")
      | Some bot =>
          let user := session in
          if negb (can_edit_bot SITE_ADMIN_ID (Some bot) user) then
            (Ok (RedirectToBot bot_id),
             flash s "You don't have permission to edit this bot." "error")
          else if bool_decide (method = "POST") then
            let bot1 := set_listing bot form in
            let commit (b : Bot.t) :=
              (Ok (RedirectToBot bot_id),
               flash (with_db s (<[bot_id := b]> (db s)))
                     "Bot updated successfully!" "success") in
            if is_admin SITE_ADMIN_ID user then
              match form_server_count form with
              | Err e => (Err e, s)
              | Ok n =>
                  if fits_integer n then
                    commit (set_admin_fields bot1 (form_contains form "certified") n)
                  else (Err OverflowError, s)
              end
            else commit bot1
          else
            (Ok (RenderEdit bot predefined_tags (bot_tags (Bot.tags bot)) user
                   (is_admin SITE_ADMIN_ID user)),
             s)
      end
  end.

(** *** Add bot (lines 156-225) *)

(** The row of lines 194-212, as the table holds it after the commit;
    nothing when the commit fails on a NULL in [id], [name], [owner_id] or
    [owner_name]. *)
Definition new_bot (bot_id : option string) (form : Form)
    (bot_data : gmap string PyVal) (owner_id owner_name : PyVal)
    (added_date : string) : option Bot.t :=
  id ← bot_id;
  name ← column_text (dict_get bot_data "username");
  owner ← column_text owner_id;
  owner_name ← column_text owner_name;
  Some (Bot.mk id name
          (cdn_url "avatars" (opt_str bot_id) (dict_get bot_data "avatar"))
          (cdn_url "banners" (opt_str bot_id) (dict_get bot_data "banner"))
          (form_get form "description")
          (form_get form "short_description")
          (Some (form_get_default form "prefix" "!"))
          (Some (form_get_default form "website" ""))
          (Some (form_get_default form "support_server" ""))
          (Some (form_get_default form "invite_link" ""))
          (Some (join_comma (form_getlist form "tags")))
          (PyStr owner) owner_name (Some added_date)
          (Some 0) (Some 0) (Some false)).

(** [r] is the reply of Discord to the request of line 178, [added_date]
    is [datetime.now().isoformat()]. *)
Definition add_bot (session : option User) (method : string) (form : Form)
    (r : HttpReply) (added_date : string) (s : State) : Reply View * State :=
  match session with
  | None => (Ok (RedirectTo "login"), flash s "Please login to add a bot." "error")
  | Some user =>
      if bool_decide (method = "POST") then
        let bot_id := form_get form "bot_id" in
        if bool_decide (is_Some (bot_id ≫= λ k, db s !! k)) then
          (Ok (RedirectTo "add_bot"), flash s "This bot is already listed." "error")
        else if bool_decide (status_code r ≠ 200) then
          (Ok (RedirectTo "add_bot"),
           flash s "Invalid Bot ID or Discord API error." "error")
        else
          let bot_data := json r in
          if negb (py_truthy (dict_get bot_data "bot")) then
            (Ok (RedirectTo "add_bot"),
             flash s "This ID is not a bot account." "error")
          else
            match user !! "id" with
            | None => (Err (KeyError "id"), s)
            | Some owner_id =>
                match user !! "username" with
                | None => (Err (KeyError "username"), s)
                | Some owner_name =>
                    match new_bot bot_id form bot_data owner_id owner_name
                            added_date with
                    | None => (Err IntegrityError, s)
                    | Some bot =>
                        (Ok (RedirectToBot (Bot.id bot)),
                         flash (with_db s (<[Bot.id bot := bot]> (db s)))
                               "Bot added successfully!" "success")
                    end
                end
            end
      else (Ok (RenderAdd predefined_tags session), s)
  end.

(** *** Requests in sequence

    A request to one of the handlers that read or write the [bot] table or
    [user_votes], with everything it brings from outside. *)
Inductive Request : Type :=
  | Upvote (session : option User) (bot_id : string) (now : Z)
  | Detail (session : option User) (bot_id : string) (now : Z)
  | Add (session : option User) (method : string) (form : Form)
      (r : HttpReply) (added_date : string)
  | Edit (session : option User) (method : string) (form : Form)
      (bot_id : string)
  | Delete (session : option User) (bot_id : string).

(** The session a request comes with. *)
Definition request_session (q : Request) : option User :=
  match q with
  | Upvote session _ _ | Detail session _ _ | Add session _ _ _ _
  | Edit session _ _ _ | Delete session _ => session
  end.

(** The state a request leaves. *)
Definition handle (q : Request) (s : State) : State :=
  match q with
  | Upvote session bot_id now => (upvote_bot session bot_id now s).2
  | Detail session bot_id now => (bot_detail SITE_ADMIN_ID session bot_id now s).2
  | Add session method form r added_date =>
      (add_bot session method form r added_date s).2
  | Edit session method form bot_id => (edit_bot session method form bot_id s).2
  | Delete session bot_id => (delete_bot session bot_id s).2
  end.

Definition serve (qs : list Request) (s : State) : State :=
  foldl (λ s q, handle q s) s qs.

(** The key and the time of the upvote that a request casts with success. *)
Definition vote_cast (q : Request) (s : State) : option (string * string * Z) :=
  match q with
  | Upvote (Some user) bot_id now =>
      if bool_decide (status_of (upvote_bot (Some user) bot_id now s).1 = Some 200)
      then Some (vote_key (dict_get user "id") (PyStr bot_id), now)
      else None
  | _ => None
  end.

(** The votes cast by a sequence of requests, in order. *)
Fixpoint votes_cast (qs : list Request) (s : State)
    : list (string * string * Z) :=
  match qs with
  | [] => []
  | q :: qs' =>
      match vote_cast q s with
      | Some v => v :: votes_cast qs' (handle q s)
      | None => votes_cast qs' (handle q s)
      end
  end.

End Handlers.

Definition is_delete (q : Request) : bool :=
  match q with
  | Delete _ _ => true
  | _ => false
  end.

(** The number of votes in a list that were cast for the bot [bot_id]. *)
Definition votes_for (bot_id : string) (votes : list (string * string * Z)) : Z :=
  Z.of_nat (length (filter (λ v, v.1.2 = bot_id) votes)).

(** Every row of the table is stored under its own [id]. *)
Definition db_keyed (d : gmap string Bot.t) : Prop :=
  ∀ k b, d !! k = Some b → Bot.id b = k.

(** The columns no handler rewrites once a row exists. *)
Definition same_identity (b b' : Bot.t) : Prop :=
  Bot.id b' = Bot.id b ∧ Bot.name b' = Bot.name b
  ∧ Bot.owner_id b' = Bot.owner_id b ∧ Bot.owner_name b' = Bot.owner_name b
  ∧ Bot.added_date b' = Bot.added_date b
  ∧ Bot.avatar_url b' = Bot.avatar_url b ∧ Bot.banner_url b' = Bot.banner_url b.

(** ** Stand-ins for the two library functions

    Used where a property is tried on concrete requests. *)

(** Decimal digits, as [int] reads them. *)
Fixpoint digits_value (acc : Z) (x : string) : option Z :=
  match x with
  | EmptyString => Some acc
  | String c x' =>
      let d := Z.of_nat (Ascii.nat_of_ascii c) - 48 in
      if bool_decide (0 ≤ d ≤ 9) then digits_value (10 * acc + d) x' else None
  end.

Definition digits_int (x : string) : option Z :=
  if bool_decide (x = "") then None else digits_value 0 x.

(** Strings are stored as they are, [None] as NULL, other scalars as the
    text of [str()]. *)
Definition text_of (v : PyVal) : option string :=
  match v with
  | PyNone => None
  | _ => Some (py_str v)
  end.

(** A submitted edit form, with the fields of the administrator filled
    in. *)
Definition sample_form : Form :=
  {[ "description" := ["Plays music."]; "short_description" := ["music"];
     "prefix" := ["?"]; "tags" := ["Music"; "Fun"];
     "certified" := ["on"]; "server_count" := ["12"] ]}.

(** A submission form for the bot B2. *)
Definition sample_add_form : Form :=
  {[ "bot_id" := ["B2"]; "description" := ["A new bot."];
     "tags" := ["Utility"] ]}.

(** Discord's answer for a bot account. *)
Definition sample_reply : HttpReply :=
  mkReply 200 {[ "bot" := PyBool true; "username" := PyStr "Newbot";
                 "avatar" := PyStr "a1b2" ]}.

(** ** Sample data

    The scenario of the specification: actor U1 votes for bot B1, which is
    owned by U2; A is the site administrator. *)

Definition sample_bot (id : string) (owner : PyVal) (upvotes : option Z) : Bot.t :=
  Bot.mk id "Sample" None None (Some "A bot.") (Some "bot") (Some "!") (Some "")
         (Some "") (Some "") (Some "Music,Fun") owner "owner" None upvotes
         (Some 0) (Some false).

Definition sample_user (uid : PyVal) : User :=
  <["id" := uid]> {["username" := PyStr "someone"]}.

Definition sample_db : gmap string Bot.t :=
  {["B1" := sample_bot "B1" (PyStr "U2") (Some 7)]}.

(** No vote has been cast yet. *)
Definition state0 : State := mkState sample_db ∅ [].

(** U1 voted for B1 at time 1000. *)
Definition state1 : State := mkState sample_db {[("U1", "B1") := 1000]} [].


(** * Properties *)

(** ** Helper lemmas *)

Lemma user_with_id_truthy (u : User) (uid : PyVal) :
  u !! "id" = Some uid → user_truthy (Some u) = true.
Proof.
  intros Hid. unfold user_truthy. apply bool_decide_eq_true.
  intros ->. by rewrite lookup_empty in Hid.
Qed.

Lemma dict_get_id (u : User) (uid : PyVal) :
  u !! "id" = Some uid → dict_get u "id" = uid.
Proof. intros Hid. unfold dict_get. by rewrite Hid. Qed.

Lemma is_admin_with_id (admin_id : option string) (u : User) (uid : PyVal) :
  u !! "id" = Some uid →
  is_admin admin_id (Some u) = bool_decide (Some (py_str uid) = admin_id).
Proof.
  intros Hid. unfold is_admin.
  by rewrite (user_with_id_truthy u uid Hid), (dict_get_id u uid Hid).
Qed.

Lemma is_bot_owner_with_id (b : Bot.t) (u : User) (uid : PyVal) :
  u !! "id" = Some uid →
  is_bot_owner (Some b) (Some u)
  = bool_decide (py_str (Bot.owner_id b) = py_str uid).
Proof.
  intros Hid. unfold is_bot_owner.
  by rewrite (user_with_id_truthy u uid Hid), (dict_get_id u uid Hid).
Qed.

Lemma div_eucl_div_mod (a b : Z) : Z.div_eucl a b = (a / b, a mod b).
Proof. unfold Z.div, Z.modulo. by destruct (Z.div_eucl a b). Qed.

Lemma timedelta_seconds_small (td : Z) :
  0 ≤ td < 86400 * 1000000 → timedelta_seconds td = td / 1000000.
Proof.
  intros [Hlo Hhi]. unfold timedelta_seconds. apply Z.mod_small. split.
  - apply Z.div_pos; lia.
  - apply Z.div_lt_upper_bound; lia.
Qed.

Lemma cooldown_hm_small (td : Z) :
  0 ≤ td < 86400 * 1000000 →
  cooldown_hm td = (td / 1000000 / 3600, (td / 1000000) mod 3600 / 60).
Proof.
  intros Htd. unfold cooldown_hm.
  by rewrite (timedelta_seconds_small td Htd), div_eucl_div_mod.
Qed.

Lemma window_value : timedelta_hours COOLDOWN_HOURS = 21600000000.
Proof. reflexivity. Qed.

(** ** Authorization *)

(** C1 (as amended). With an absent resource the ownership disjunct is
    false, so [can_edit_bot] and [can_delete_bot] return what [is_admin]
    returns: denied for every actor but the configured administrator. *)
Theorem can_edit_bot_absent_resource (admin_id : option string)
    (user : option User) :
  can_edit_bot admin_id None user = is_admin admin_id user
  ∧ can_delete_bot admin_id None user = is_admin admin_id user.
Proof.
  unfold can_edit_bot, can_delete_bot.
  assert (is_bot_owner None user = false) as -> by (by destruct user).
  by rewrite orb_false_r.
Qed.

(** C1 as stated fails: the administrator is allowed on an absent
    resource. *)
Lemma can_edit_bot_absent_resource_admin :
  can_edit_bot (Some "A") None (Some (sample_user (PyStr "A"))) = true
  ∧ can_delete_bot (Some "A") None (Some (sample_user (PyStr "A"))) = true.
Proof. split; reflexivity. Qed.

(** C6. An actor whose id is the configured administrator id may edit
    every resource, owned or not, present or not. *)
Theorem admin_can_edit (admin_id : option string) (bot : option Bot.t)
    (u : User) (uid : PyVal) :
  u !! "id" = Some uid →
  admin_id = Some (py_str uid) →
  can_edit_bot admin_id bot (Some u) = true.
Proof.
  intros Hid ->. unfold can_edit_bot.
  rewrite (is_admin_with_id _ u uid Hid).
  by rewrite bool_decide_eq_true_2.
Qed.

Lemma admin_can_edit_witness :
  sample_user (PyStr "A") !! "id" = Some (PyStr "A")
  ∧ can_edit_bot (Some "A") (Some (sample_bot "B1" (PyStr "U2") None))
      (Some (sample_user (PyStr "A"))) = true.
Proof.
  split; [reflexivity|].
  apply (admin_can_edit (Some "A") _ (sample_user (PyStr "A")) (PyStr "A"));
    reflexivity.
Defined.

(** C7. The edit and delete policies are the same function of the resource
    and the actor, absent ones included. *)
Theorem can_edit_eq_can_delete (admin_id : option string)
    (bot : option Bot.t) (user : option User) :
  can_edit_bot admin_id bot user = can_delete_bot admin_id bot user.
Proof. reflexivity. Qed.

(** ** Upvote cooldown *)

(** The handler is its two halves run back to back. *)
Lemma upvote_bot_split (session : option User) (bot_id : string) (now : Z)
    (s : State) :
  upvote_bot session bot_id now s
  = match upvote_read session bot_id now s with
    | AtEntry _ _ _ => upvote_bot session bot_id now s
    | AfterRead bot b key t last_vote => upvote_check_write bot b key t last_vote s
    | Finished r => (r, s)
    end.
Proof.
  unfold upvote_bot, upvote_read, upvote_check_write.
  destruct session as [user|]; [|done].
  destruct (db s !! bot_id) as [bot|]; [|done].
  by destruct (user !! "id") as [user_id|].
Qed.

Lemma upvote_bot_logged_in (u : User) (uid : PyVal) (bot_id : string)
    (bot : Bot.t) (now : Z) (s : State) :
  u !! "id" = Some uid →
  db s !! bot_id = Some bot →
  upvote_bot (Some u) bot_id now s
  = upvote_check_write bot bot_id (vote_key uid (PyStr bot_id)) now
      (user_votes s !! vote_key uid (PyStr bot_id)) s.
Proof.
  intros Hid Hbot. rewrite upvote_bot_split. unfold upvote_read.
  by rewrite Hbot, Hid.
Qed.

Lemma check_write_cooling (bot : Bot.t) (bot_id : string)
    (key : string * string) (now lv : Z) (s : State) :
  now - lv < timedelta_hours COOLDOWN_HOURS →
  upvote_check_write bot bot_id key now (Some lv) s
  = (Return (ErrorBody ("Cooldown: next vote in "
       +:+ cooldown_msg (lv + timedelta_hours COOLDOWN_HOURS - now)), 403), s).
Proof.
  intros Hlt. unfold upvote_check_write. by rewrite bool_decide_eq_true_2.
Qed.

Lemma check_write_free (bot : Bot.t) (bot_id : string)
    (key : string * string) (now : Z) (last_vote : option Z) (s : State) :
  fits_integer (or_zero (Bot.upvotes bot) + 1) = true →
  (∀ lv, last_vote = Some lv → timedelta_hours COOLDOWN_HOURS ≤ now - lv) →
  upvote_check_write bot bot_id key now last_vote s
  = (Return (UpvotesBody (Some (or_zero (Bot.upvotes bot) + 1)), 200),
     mkState
       (<[bot_id := Bot.set_upvotes bot (or_zero (Bot.upvotes bot) + 1)]> (db s))
       (<[key := now]> (user_votes s)) (flashes s)).
Proof.
  intros Hfits Hfree. unfold upvote_check_write. rewrite Hfits.
  destruct last_vote as [lv|]; [|done].
  rewrite bool_decide_eq_false_2; [done|].
  specialize (Hfree lv eq_refl). lia.
Qed.

(** The commit of line 323 fails: the entry of line 322 stays written. *)
Lemma check_write_overflow (bot : Bot.t) (bot_id : string)
    (key : string * string) (now : Z) (last_vote : option Z) (s : State) :
  fits_integer (or_zero (Bot.upvotes bot) + 1) = false →
  (∀ lv, last_vote = Some lv → timedelta_hours COOLDOWN_HOURS ≤ now - lv) →
  upvote_check_write bot bot_id key now last_vote s
  = (Raise OverflowError,
     mkState (db s) (<[key := now]> (user_votes s)) (flashes s)).
Proof.
  intros Hfits Hfree. unfold upvote_check_write. rewrite Hfits.
  destruct last_vote as [lv|]; [|done].
  rewrite bool_decide_eq_false_2; [done|].
  specialize (Hfree lv eq_refl). lia.
Qed.




Lemma vote_hint_cooling (u : User) (uid : PyVal) (bot_id : string)
    (now lv : Z) (s : State) :
  u !! "id" = Some uid →
  user_votes s !! vote_key uid (PyStr bot_id) = Some lv →
  now - lv < timedelta_hours COOLDOWN_HOURS →
  vote_hint (Some u) bot_id now s
  = Return (false,
            Some (cooldown_msg (lv + timedelta_hours COOLDOWN_HOURS - now))).
Proof.
  intros Hid Hlv Hlt. unfold vote_hint.
  rewrite (user_with_id_truthy u uid Hid), Hid, Hlv.
  by rewrite bool_decide_eq_true_2.
Qed.

(** C3. A vote refused inside the window ([lv ≤ now < lv + window]) has
    [lv + window - now] left; both the 403 message of [upvote_bot] and the
    hint of [bot_detail] show it as whole hours and whole minutes of its
    whole seconds. *)
Theorem cooldown_remaining_rendering (u : User) (uid : PyVal)
    (bot_id : string) (bot : Bot.t) (now lv : Z) (s : State) :
  u !! "id" = Some uid →
  db s !! bot_id = Some bot →
  user_votes s !! vote_key uid (PyStr bot_id) = Some lv →
  lv ≤ now →
  now - lv < timedelta_hours COOLDOWN_HOURS →
  let remaining := lv + timedelta_hours COOLDOWN_HOURS - now in
  let remaining_seconds := remaining / 1000000 in
  let hours := remaining_seconds / 3600 in
  let minutes := (remaining_seconds mod 3600) / 60 in
  let shown := pretty hours +:+ "h " +:+ pretty minutes +:+ "m" in
  upvote_bot (Some u) bot_id now s
  = (Return (ErrorBody ("Cooldown: next vote in " +:+ shown), 403), s)
  ∧ vote_hint (Some u) bot_id now s = Return (false, Some shown).
Proof.
  intros Hid Hbot Hlv Hle Hlt remaining remaining_seconds hours minutes shown.
  assert (cooldown_msg remaining = shown) as Hmsg.
  { unfold cooldown_msg. rewrite cooldown_hm_small; [done|].
    subst remaining. rewrite window_value in *. lia. }
  split.
  - rewrite (upvote_bot_logged_in u uid bot_id bot now s Hid Hbot), Hlv.
    rewrite check_write_cooling by done. fold remaining. by rewrite Hmsg.
  - rewrite (vote_hint_cooling u uid bot_id now lv s Hid Hlv Hlt).
    fold remaining. by rewrite Hmsg.
Qed.

(** The scenario of the specification: U1 voted at 1000; five hours and 59
    minutes later one minute is left. *)
Lemma cooldown_remaining_rendering_witness :
  (sample_user (PyStr "U1") !! "id" = Some (PyStr "U1")
   ∧ db state1 !! "B1" = Some (sample_bot "B1" (PyStr "U2") (Some 7))
   ∧ user_votes state1 !! vote_key (PyStr "U1") (PyStr "B1") = Some 1000
   ∧ 1000 ≤ 1000 + 21540000000
   ∧ 1000 + 21540000000 - 1000 < timedelta_hours COOLDOWN_HOURS)
  ∧ upvote_bot (Some (sample_user (PyStr "U1"))) "B1" (1000 + 21540000000) state1
    = (Return (ErrorBody "Cooldown: next vote in 0h 1m", 403), state1)
  ∧ vote_hint (Some (sample_user (PyStr "U1"))) "B1" (1000 + 21540000000) state1
    = Return (false, Some "0h 1m").
Proof.
  split.
  - repeat split; try reflexivity; vm_compute; discriminate.
  - apply (cooldown_remaining_rendering (sample_user (PyStr "U1")) (PyStr "U1")
             "B1" (sample_bot "B1" (PyStr "U2") (Some 7))
             (1000 + 21540000000) 1000 state1);
      try reflexivity; vm_compute; discriminate.
Defined.

(** Outside the claim: [timedelta.seconds] drops whole days, so a remaining
    time of 25 hours (an entry 19 hours in the future) would show as one
    hour. *)
Example cooldown_hm_drops_days :
  cooldown_hm (timedelta_hours 25) = (1, 0).
Proof. reflexivity. Qed.

(** ** Effects of the handlers on the stores *)

(** Case analysis along the branches of [upvote_bot]. *)
Ltac upvote_cases session s bot_id :=
  unfold upvote_bot;
  destruct session as [?u|];
    [destruct (db s !! bot_id) as [?bot|] eqn:?Hbot;
      [destruct (_ !! "id") as [?uid|] eqn:?Hid;
        [cbv zeta;
         destruct (fits_integer _) eqn:?Hfits;
         (destruct (user_votes s !! _) as [?lv|] eqn:?Hlv;
          [case_bool_decide|])
        |]
      |]
    |];
  cbn [fst snd status_of user_votes db flashes].



(** [upvote_bot] writes [user_votes] only past the cooldown check, and then
    only the entry of its key. *)
Lemma upvote_bot_user_votes (session : option User) (bot_id : string)
    (now : Z) (s : State) :
  user_votes (upvote_bot session bot_id now s).2 = user_votes s
  ∨ ∃ u uid,
      session = Some u ∧ u !! "id" = Some uid ∧ is_Some (db s !! bot_id)
      ∧ (∀ lv, user_votes s !! vote_key uid (PyStr bot_id) = Some lv →
               timedelta_hours COOLDOWN_HOURS ≤ now - lv)
      ∧ user_votes (upvote_bot session bot_id now s).2
        = <[vote_key uid (PyStr bot_id) := now]> (user_votes s).
Proof.
  upvote_cases session s bot_id; try (by left);
    right; exists u, uid; (split; [done|]); (split; [done|]);
    (split; [done|]); (split; [|done]); intros lv' Hlv'; simplify_eq; lia.
Qed.

Lemma bot_detail_stores (admin_id : option string) (session : option User)
    (bot_id : string) (now : Z) (s : State) :
  user_votes (bot_detail admin_id session bot_id now s).2 = user_votes s
  ∧ db (bot_detail admin_id session bot_id now s).2 = db s.
Proof.
  unfold bot_detail. destruct (db s !! bot_id) as [bot|]; [|done].
  destruct (vote_hint session bot_id now s) as [[can_vote msg]|e]; [|done].
  by destruct (Bot.description bot).
Qed.








(** C10. An accepted upvote on a row whose count is NULL stores 1 and
    answers 200 with that count: [(bot.upvotes or 0) + 1] is defined for a
    missing count; and for every row whose count (0 when missing) plus one
    fits the column, that is the count stored and answered. *)
Theorem upvote_null_count (u : User) (uid : PyVal) (bot_id : string)
    (bot : Bot.t) (now : Z) (s : State) :
  u !! "id" = Some uid →
  db s !! bot_id = Some bot →
  (∀ lv, user_votes s !! vote_key uid (PyStr bot_id) = Some lv →
         timedelta_hours COOLDOWN_HOURS ≤ now - lv) →
  let r := (upvote_bot (Some u) bot_id now s).1 in
  let s' := (upvote_bot (Some u) bot_id now s).2 in
  (Bot.upvotes bot = None →
     r = Return (UpvotesBody (Some 1), 200)
     ∧ Bot.upvotes <$> db s' !! bot_id = Some (Some 1))
  ∧ (fits_integer (or_zero (Bot.upvotes bot) + 1) = true →
     r = Return (UpvotesBody (Some (or_zero (Bot.upvotes bot) + 1)), 200)
     ∧ Bot.upvotes <$> db s' !! bot_id
       = Some (Some (or_zero (Bot.upvotes bot) + 1))).
Proof.
  intros Hid Hbot Hfree r s'. subst r s'.
  rewrite (upvote_bot_logged_in u uid bot_id bot now s Hid Hbot).
  assert (fits_integer (or_zero (Bot.upvotes bot) + 1) = true →
          (upvote_check_write bot bot_id (vote_key uid (PyStr bot_id)) now
             (user_votes s !! vote_key uid (PyStr bot_id)) s).1
          = Return (UpvotesBody (Some (or_zero (Bot.upvotes bot) + 1)), 200)
          ∧ Bot.upvotes
              <$> db (upvote_check_write bot bot_id
                        (vote_key uid (PyStr bot_id)) now
                        (user_votes s !! vote_key uid (PyStr bot_id)) s).2
                  !! bot_id
            = Some (Some (or_zero (Bot.upvotes bot) + 1))) as Hroom.
  { intros Hfits. rewrite check_write_free by done. cbn [fst snd db].
    by rewrite lookup_insert_eq. }
  split; [|exact Hroom].
  intros Hnull. rewrite Hnull in Hroom. by apply Hroom.
Qed.

Lemma upvote_null_count_witness :
  upvote_bot (Some (sample_user (PyInt 5))) "B2" 2000
    (mkState {["B2" := sample_bot "B2" (PyStr "U2") None]} ∅ [])
  = (Return (UpvotesBody (Some 1), 200),
     mkState {["B2" := sample_bot "B2" (PyStr "U2") (Some 1)]}
             {[("5", "B2") := 2000]} []).
Proof.
  pose proof (upvote_null_count (sample_user (PyInt 5)) (PyInt 5) "B2"
                (sample_bot "B2" (PyStr "U2") None) 2000
                (mkState {["B2" := sample_bot "B2" (PyStr "U2") None]} ∅ [])
                eq_refl eq_refl) as H.
  destruct H as [Hnull _]; [intros lv Hlv; vm_compute in Hlv; discriminate Hlv|].
  destruct (Hnull eq_refl) as [Hr _].
  apply injective_projections; [exact Hr|]. vm_compute. reflexivity.
Defined.

(** ** Identity comparisons go through [str()] *)

Lemma vote_key_str (a a' b b' : PyVal) :
  py_str a = py_str a' → py_str b = py_str b' → vote_key a b = vote_key a' b'.
Proof. unfold vote_key. by intros -> ->. Qed.



(** ** Two requests for one key *)

Lemma upvote_read_logged_in (u : User) (uid : PyVal) (bot_id : string)
    (bot : Bot.t) (now : Z) (s : State) :
  u !! "id" = Some uid →
  db s !! bot_id = Some bot →
  upvote_read (Some u) bot_id now s
  = AfterRead bot bot_id (vote_key uid (PyStr bot_id)) now
      (user_votes s !! vote_key uid (PyStr bot_id)).
Proof. intros Hid Hbot. unfold upvote_read. by rewrite Hbot, Hid. Qed.

(** The interleavings of two threads of two steps each. *)
Lemma interleavings_of_two (schedule : list Tid) :
  schedule ≡ₚ [T1; T1; T2; T2] →
  schedule ∈ [[T1; T1; T2; T2]; [T2; T2; T1; T1]; [T1; T2; T1; T2];
              [T1; T2; T2; T1]; [T2; T1; T1; T2]; [T2; T1; T2; T1]].
Proof.
  intros Hperm. symmetry in Hperm.
  apply permutations_Permutation in Hperm. vm_compute in Hperm.
  repeat (apply elem_of_cons in Hperm as [->|Hperm]; [set_solver|]).
  by apply elem_of_nil in Hperm.
Qed.

(** Two steps of one thread are one call of the handler. *)
Lemma upvote_two_steps (session : option User) (bot_id : string) (now : Z)
    (s : State) :
  upvote_step (upvote_step (AtEntry session bot_id now) s).1
              (upvote_step (AtEntry session bot_id now) s).2
  = (Finished (upvote_bot session bot_id now s).1,
     (upvote_bot session bot_id now s).2).
Proof.
  rewrite upvote_bot_split. cbn [upvote_step fst snd].
  destruct (upvote_read session bot_id now s) as [? ? ?|b bid k t lv|r] eqn:Hread.
  - unfold upvote_read in Hread.
    destruct session as [u|]; [|discriminate Hread].
    destruct (db s !! bot_id); [|discriminate Hread].
    destruct (u !! "id"); discriminate Hread.
  - cbn [upvote_step]. by destruct (upvote_check_write b bid k t lv s).
  - reflexivity.
Qed.

(** A serial schedule is the sequential composition of two calls. *)
Lemma run_serial_sequential (session1 session2 : option User)
    (bot_id1 bot_id2 : string) (now1 now2 : Z) (s : State) :
  run [T1; T1; T2; T2]
      (mkConfig s (AtEntry session1 bot_id1 now1) (AtEntry session2 bot_id2 now2))
  = mkConfig
      (upvote_bot session2 bot_id2 now2 (upvote_bot session1 bot_id1 now1 s).2).2
      (Finished (upvote_bot session1 bot_id1 now1 s).1)
      (Finished
         (upvote_bot session2 bot_id2 now2 (upvote_bot session1 bot_id1 now1 s).2).1).
Proof.
  cbn [run sched_step pc1 pc2 shared].
  pose proof (upvote_two_steps session1 bot_id1 now1 s) as H1.
  destruct (upvote_step (AtEntry session1 bot_id1 now1) s) as [p s1].
  cbn [pc1 pc2 shared fst snd] in *. rewrite H1. cbn [pc1 pc2 shared].
  pose proof (upvote_two_steps session2 bot_id2 now2
                (upvote_bot session1 bot_id1 now1 s).2) as H2.
  destruct (upvote_step (AtEntry session2 bot_id2 now2)
              (upvote_bot session1 bot_id1 now1 s).2) as [q s2].
  cbn [pc1 pc2 shared fst snd] in *. by rewrite H2.
Qed.

Section TwoRequests.

Variables (u1 u2 : User) (uid1 uid2 : PyVal) (bot_id : string) (bot : Bot.t).
Variables (now1 now2 : Z) (s : State).

Hypothesis Hid1 : u1 !! "id" = Some uid1.
Hypothesis Hid2 : u2 !! "id" = Some uid2.
Hypothesis Hsame : py_str uid1 = py_str uid2.
Hypothesis Hbot : db s !! bot_id = Some bot.
Hypothesis Hfits : fits_integer (or_zero (Bot.upvotes bot) + 1) = true.
Hypothesis Hfresh : user_votes s !! vote_key uid1 (PyStr bot_id) = None.
Hypothesis Hnear :
  - timedelta_hours COOLDOWN_HOURS < now2 - now1 < timedelta_hours COOLDOWN_HOURS.

Lemma two_requests_key :
  vote_key uid2 (PyStr bot_id) = vote_key uid1 (PyStr bot_id).
Proof. symmetry. by apply vote_key_str. Qed.

Ltac reduce_run :=
  cbn [run sched_step upvote_step pc1 pc2 shared].

Ltac read_step u uid Hid :=
  erewrite (upvote_read_logged_in u uid _ _ _ _ Hid);
    [|first [exact Hbot | cbn [db]; apply lookup_insert_eq]];
  rewrite ?two_requests_key; cbn [user_votes];
  first [rewrite Hfresh | rewrite lookup_insert_eq];
  reduce_run.

Ltac write_step :=
  first [rewrite check_write_free by done
        | rewrite check_write_cooling by lia];
  reduce_run.

Ltac thread_1 := first [read_step u1 uid1 Hid1 | write_step].
Ltac thread_2 := first [read_step u2 uid2 Hid2 | write_step].

(** Thread 1 served first: it is accepted, thread 2 is refused. *)
Lemma run_first_then_second :
  let c := run [T1; T1; T2; T2]
             (mkConfig s (AtEntry (Some u1) bot_id now1)
                         (AtEntry (Some u2) bot_id now2)) in
  accepted (pc1 c) = true ∧ rejected (pc2 c) = true.
Proof.
  cbv zeta. reduce_run. thread_1. thread_1. thread_2. thread_2. done.
Qed.

(** Thread 2 served first: it is accepted, thread 1 is refused. *)
Lemma run_second_then_first :
  let c := run [T2; T2; T1; T1]
             (mkConfig s (AtEntry (Some u1) bot_id now1)
                         (AtEntry (Some u2) bot_id now2)) in
  rejected (pc1 c) = true ∧ accepted (pc2 c) = true.
Proof.
  cbv zeta. reduce_run. thread_2. thread_2. thread_1. thread_1. done.
Qed.

(** Both reads before both writes: both threads find no entry, both are
    accepted, and both answer with the same count. *)
Lemma run_overlapping (schedule : list Tid) :
  schedule ∈ [[T1; T2; T1; T2]; [T1; T2; T2; T1];
              [T2; T1; T1; T2]; [T2; T1; T2; T1]] →
  let c := run schedule
             (mkConfig s (AtEntry (Some u1) bot_id now1)
                         (AtEntry (Some u2) bot_id now2)) in
  pc1 c = Finished (Return (UpvotesBody (Some (or_zero (Bot.upvotes bot) + 1)), 200))
  ∧ pc2 c = Finished (Return (UpvotesBody (Some (or_zero (Bot.upvotes bot) + 1)), 200)).
Proof.
  intros Hin. cbv zeta.
  repeat (apply elem_of_cons in Hin as [->|Hin]);
    [| | | |by apply elem_of_nil in Hin]; reduce_run.
  - thread_1. thread_2. thread_1. thread_2. done.
  - thread_1. thread_2. thread_2. thread_1. done.
  - thread_2. thread_1. thread_1. thread_2. done.
  - thread_2. thread_1. thread_2. thread_1. done.
Qed.

End TwoRequests.

(** C8 (as amended). Two upvotes for one key with no prior entry, less than
    a window apart, on a target whose count plus one fits the [Integer]
    column. Served one after the other, exactly one is accepted: the first,
    the second being refused with 403. The handler holds no lock: among the
    interleavings of the two requests, cut between the read of line 313 and
    the check of line 314, the two serial ones accept one request and
    refuse the other, and all others accept both. *)
Theorem two_upvotes_interleaved (u1 u2 : User) (uid1 uid2 : PyVal)
    (bot_id : string) (bot : Bot.t) (now1 now2 : Z) (s : State)
    (schedule : list Tid) :
  u1 !! "id" = Some uid1 →
  u2 !! "id" = Some uid2 →
  py_str uid1 = py_str uid2 →
  db s !! bot_id = Some bot →
  fits_integer (or_zero (Bot.upvotes bot) + 1) = true →
  user_votes s !! vote_key uid1 (PyStr bot_id) = None →
  - timedelta_hours COOLDOWN_HOURS < now2 - now1 < timedelta_hours COOLDOWN_HOURS →
  schedule ≡ₚ [T1; T1; T2; T2] →
  let first := upvote_bot (Some u1) bot_id now1 s in
  let second := upvote_bot (Some u2) bot_id now2 first.2 in
  let c := run schedule (mkConfig s (AtEntry (Some u1) bot_id now1)
                                    (AtEntry (Some u2) bot_id now2)) in
  (status_of first.1 = Some 200 ∧ status_of second.1 = Some 403)
  ∧ (schedule = [T1; T1; T2; T2] →
     accepted (pc1 c) = true ∧ rejected (pc2 c) = true)
  ∧ (schedule = [T2; T2; T1; T1] →
     rejected (pc1 c) = true ∧ accepted (pc2 c) = true)
  ∧ (serial schedule = false →
     accepted (pc1 c) = true ∧ accepted (pc2 c) = true).
Proof.
  intros Hid1 Hid2 Hsame Hbot Hfits Hfresh Hnear Hperm first second c.
  pose proof (run_first_then_second u1 u2 uid1 uid2 bot_id bot now1 now2 s
                Hid1 Hid2 Hsame Hbot Hfits Hfresh Hnear) as H12.
  split; [|split; [|split]].
  - cbv zeta in H12. rewrite run_serial_sequential in H12.
    cbn [pc1 pc2] in H12. destruct H12 as [Ha Hr].
    unfold accepted, rejected in Ha, Hr.
    apply bool_decide_eq_true in Ha, Hr. by split.
  - intros Heq. subst c. rewrite Heq. exact H12.
  - intros Heq. subst c. rewrite Heq.
    by apply (run_second_then_first u1 u2 uid1 uid2 bot_id bot now1 now2 s).
  - intros Hser.
    apply interleavings_of_two in Hperm.
    apply elem_of_cons in Hperm as [->|Hperm]; [discriminate Hser|].
    apply elem_of_cons in Hperm as [->|Hperm]; [discriminate Hser|].
    destruct (run_overlapping u1 u2 uid1 uid2 bot_id bot now1 now2 s
                Hid1 Hid2 Hsame Hbot Hfits Hfresh schedule Hperm) as [Hp1 Hp2].
    subst c. by rewrite Hp1, Hp2.
Qed.

Lemma two_upvotes_interleaved_witness :
  let u := sample_user (PyStr "U1") in
  let first := upvote_bot (Some u) "B1" 1000 state0 in
  let second := upvote_bot (Some u) "B1" 1001 first.2 in
  (u !! "id" = Some (PyStr "U1")
   ∧ db state0 !! "B1" = Some (sample_bot "B1" (PyStr "U2") (Some 7))
   ∧ fits_integer (or_zero (Some 7) + 1) = true
   ∧ user_votes state0 !! vote_key (PyStr "U1") (PyStr "B1") = None
   ∧ - timedelta_hours COOLDOWN_HOURS < 1001 - 1000 < timedelta_hours COOLDOWN_HOURS
   ∧ [T1; T1; T2; T2] ≡ₚ [T1; T1; T2; T2])
  ∧ status_of first.1 = Some 200 ∧ status_of second.1 = Some 403.
Proof.
  cbv zeta. split.
  - repeat split; reflexivity.
  - apply (two_upvotes_interleaved (sample_user (PyStr "U1"))
             (sample_user (PyStr "U1")) (PyStr "U1") (PyStr "U1") "B1"
             (sample_bot "B1" (PyStr "U2") (Some 7)) 1000 1001 state0
             [T1; T1; T2; T2]);
      try reflexivity.
    split; reflexivity.
Defined.

(** C8 as stated fails: U1 sends two upvotes for B1 one microsecond apart,
    with no prior entry; scheduled read, read, write, write, both are
    accepted and neither is refused. *)
Lemma concurrent_upvotes_both_accepted :
  let u := sample_user (PyStr "U1") in
  let c := run [T1; T2; T1; T2]
             (mkConfig state0 (AtEntry (Some u) "B1" 1000)
                              (AtEntry (Some u) "B1" 1001)) in
  user_votes state0 !! vote_key (PyStr "U1") (PyStr "B1") = None
  ∧ accepted (pc1 c) = true ∧ accepted (pc2 c) = true
  ∧ rejected (pc1 c) = false ∧ rejected (pc2 c) = false.
Proof. cbv zeta. repeat split; reflexivity. Qed.

(** * Further properties of the handlers *)

(** ** The cooldown hint and the upvote *)

(** X1. The page of [bot_detail] is rendered exactly for a listed bot whose
    description is not NULL; for a NULL description the handler raises
    [AttributeError]. For a logged-in actor the rendered page withholds the
    vote exactly when [upvote_bot] would refuse it with 403 at the same
    instant, shows a waiting time exactly when it withholds the vote, and
    that time is the one of the 403 message; when the count of the bot plus
    one fits the column, the page offers the vote exactly when [upvote_bot]
    would accept it, and otherwise an offered vote ends in
    [OverflowError]. A visitor without a session is offered the vote
    although [upvote_bot] answers 401. *)
Theorem hint_agrees_with_upvote (admin_id : option string) (u : User)
    (uid : PyVal) (bot_id : string) (bot : Bot.t) (now : Z) (s : State) :
  u !! "id" = Some uid →
  db s !! bot_id = Some bot →
  (Bot.description bot = None →
   bot_detail admin_id (Some u) bot_id now s = (Raise AttributeError, s)
   ∧ bot_detail admin_id None bot_id now s = (Raise AttributeError, s))
  ∧ (is_Some (Bot.description bot) →
     (∃ ctx,
        bot_detail admin_id (Some u) bot_id now s
        = (Return (Render "bot_detail.html" ctx), s)
        ∧ (ctx_can_vote ctx = false
           ↔ status_of (upvote_bot (Some u) bot_id now s).1 = Some 403)
        ∧ (fits_integer (or_zero (Bot.upvotes bot) + 1) = true →
           (ctx_can_vote ctx = true
            ↔ status_of (upvote_bot (Some u) bot_id now s).1 = Some 200))
        ∧ (fits_integer (or_zero (Bot.upvotes bot) + 1) = false →
           ctx_can_vote ctx = true →
           (upvote_bot (Some u) bot_id now s).1 = Raise OverflowError)
        ∧ (ctx_cooldown_msg ctx = None ↔ ctx_can_vote ctx = true)
        ∧ (∀ msg, ctx_cooldown_msg ctx = Some msg →
             (upvote_bot (Some u) bot_id now s).1
             = Return (ErrorBody ("Cooldown: next vote in " +:+ msg), 403)))
     ∧ (∃ ctx,
          bot_detail admin_id None bot_id now s
          = (Return (Render "bot_detail.html" ctx), s)
          ∧ ctx_can_vote ctx = true
          ∧ status_of (upvote_bot None bot_id now s).1 = Some 401)).
Proof.
  intros Hid Hbot. split.
  { intros Hnull. unfold bot_detail, vote_hint. rewrite Hbot, Hnull. cbv zeta.
    rewrite (user_with_id_truthy u uid Hid), Hid. split; [|done].
    destruct (user_votes s !! vote_key uid (PyStr bot_id)) as [lv|]; [|done].
    by case_bool_decide. }
  intros [d Hd]. split.
  - unfold bot_detail, vote_hint. rewrite Hbot, Hd. cbv zeta.
    rewrite (user_with_id_truthy u uid Hid), Hid.
    rewrite (upvote_bot_logged_in u uid bot_id bot now s Hid Hbot).
    destruct (user_votes s !! vote_key uid (PyStr bot_id)) as [lv|].
    + destruct (decide (now - lv < timedelta_hours COOLDOWN_HOURS)) as [Hlt|Hge].
      * rewrite bool_decide_eq_true_2 by done.
        rewrite check_write_cooling by done.
        eexists. split; [reflexivity|]. cbn.
        split; [done|]. split; [done|]. split; [done|]. split; [done|].
        by intros msg [= <-].
      * rewrite bool_decide_eq_false_2 by done.
        eexists. split; [reflexivity|]. cbn [ctx_can_vote ctx_cooldown_msg].
        destruct (fits_integer (or_zero (Bot.upvotes bot) + 1)) eqn:Hfits.
        -- rewrite check_write_free by (done || (intros ? [= <-]; lia)).
           cbn. done.
        -- rewrite check_write_overflow by (done || (intros ? [= <-]; lia)).
           cbn. done.
    + eexists. split; [reflexivity|]. cbn [ctx_can_vote ctx_cooldown_msg].
      destruct (fits_integer (or_zero (Bot.upvotes bot) + 1)) eqn:Hfits.
      * rewrite check_write_free by done. cbn. done.
      * rewrite check_write_overflow by done. cbn. done.
  - unfold bot_detail, vote_hint. rewrite Hbot, Hd. cbv zeta.
    eexists. split; [reflexivity|]. done.
Qed.

Lemma hint_agrees_with_upvote_witness :
  ∃ ctx,
    bot_detail None (Some (sample_user (PyStr "U1"))) "B1" 2000 state1
    = (Return (Render "bot_detail.html" ctx), state1)
    ∧ ctx_can_vote ctx = false
    ∧ ctx_cooldown_msg ctx = Some "5h 59m".
Proof.
  destruct (hint_agrees_with_upvote None (sample_user (PyStr "U1")) (PyStr "U1")
              "B1" (sample_bot "B1" (PyStr "U2") (Some 7)) 2000 state1
              eq_refl eq_refl) as [_ Hpage].
  destruct Hpage as [(ctx & Hpage & _) _]; [by eexists|].
  exists ctx. split; [exact Hpage|].
  vm_compute in Hpage. injection Hpage as <-. split; reflexivity.
Defined.

(** Each handler other than [upvote_bot] leaves [user_votes] alone. *)
Lemma delete_bot_user_votes (admin_id : option string)
    (session : option User) (bot_id : string) (s : State) :
  user_votes (delete_bot admin_id session bot_id s).2 = user_votes s.
Proof.
  unfold delete_bot. destruct session as [u|]; [|done].
  destruct (db s !! bot_id) as [bot|]; [|done].
  by destruct (negb _).
Qed.

Lemma edit_bot_user_votes (admin_id : option string)
    (py_int : string → option Z) (session : option User) (method : string)
    (form : Form) (bot_id : string) (s : State) :
  user_votes (edit_bot admin_id py_int session method form bot_id s).2
  = user_votes s.
Proof.
  unfold edit_bot. destruct session as [u|]; [|done].
  destruct (db s !! bot_id) as [bot|]; [|done]. cbv zeta.
  destruct (negb _); [done|]. case_bool_decide; [|done].
  destruct (is_admin _ _); [|done].
  destruct (form_server_count _ _) as [n|e]; [|done].
  by destruct (fits_integer n).
Qed.

Lemma add_bot_user_votes (column_text : PyVal → option string)
    (session : option User) (method : string) (form : Form) (r : HttpReply)
    (added_date : string) (s : State) :
  user_votes (add_bot column_text session method form r added_date s).2
  = user_votes s.
Proof.
  unfold add_bot. destruct session as [u|]; [|done].
  case_bool_decide; [|done]. cbv zeta.
  case_bool_decide; [done|]. case_bool_decide; [done|].
  destruct (negb _); [done|].
  destruct (u !! "id"); [|done]. destruct (u !! "username"); [|done].
  by destruct (new_bot _ _ _ _ _ _ _).
Qed.

(** A request leaves [user_votes] alone or, being an upvote past the
    cooldown check, sets the entry of its key. *)
Lemma handle_user_votes (admin_id : option string)
    (py_int : string → option Z) (column_text : PyVal → option string)
    (q : Request) (s : State) :
  user_votes (handle admin_id py_int column_text q s) = user_votes s
  ∨ ∃ k now,
      user_votes (handle admin_id py_int column_text q s)
      = <[k := now]> (user_votes s)
      ∧ ∀ lv, user_votes s !! k = Some lv →
              timedelta_hours COOLDOWN_HOURS ≤ now - lv.
Proof.
  destruct q as [se b n|se b n|se m f r d|se m f b|se b]; cbn [handle].
  - destruct (upvote_bot_user_votes se b n s)
      as [->|(u & uid & _ & _ & _ & Hfree & ->)]; [by left|].
    right. by exists (vote_key uid (PyStr b)), n.
  - left. apply bot_detail_stores.
  - left. apply add_bot_user_votes.
  - left. apply edit_bot_user_votes.
  - left. apply delete_bot_user_votes.
Qed.

(** The parameters of the handlers, for the statements about sequences of
    requests. *)
Section Served.

Variable admin_id : option string.
Variable py_int : string → option Z.
Variable column_text : PyVal → option string.

Lemma serve_cons (q : Request) (qs : list Request) (s : State) :
  serve admin_id py_int column_text (q :: qs) s
  = serve admin_id py_int column_text qs
      (handle admin_id py_int column_text q s).
Proof. reflexivity. Qed.

Lemma serve_app (qs qs' : list Request) (s : State) :
  serve admin_id py_int column_text (qs ++ qs') s
  = serve admin_id py_int column_text qs'
      (serve admin_id py_int column_text qs s).
Proof. unfold serve. apply foldl_app. Qed.

(** X2. Refused votes do not restart the cooldown: after a vote at [lv],
    any number of attempts before [lv] plus the window are answered 403 and
    leave the state as it is, so the next vote passes the cooldown check
    exactly one window after [lv]: it is not refused with 403 then, and it
    is accepted when the count of the bot plus one fits the column. *)
Theorem refused_votes_keep_entry (u : User) (uid : PyVal) (bot_id : string)
    (bot : Bot.t) (lv : Z) (times : list Z) (s : State) :
  u !! "id" = Some uid →
  db s !! bot_id = Some bot →
  user_votes s !! vote_key uid (PyStr bot_id) = Some lv →
  Forall (λ t, t - lv < timedelta_hours COOLDOWN_HOURS) times →
  let s' := serve admin_id py_int column_text
              (Upvote (Some u) bot_id <$> times) s in
  s' = s
  ∧ Forall (λ t, status_of (upvote_bot (Some u) bot_id t s).1 = Some 403) times
  ∧ status_of (upvote_bot (Some u) bot_id
                 (lv + timedelta_hours COOLDOWN_HOURS) s').1 ≠ Some 403
  ∧ (fits_integer (or_zero (Bot.upvotes bot) + 1) = true →
     status_of (upvote_bot (Some u) bot_id
                  (lv + timedelta_hours COOLDOWN_HOURS) s').1 = Some 200).
Proof.
  intros Hid Hbot Hlv Htimes s'.
  assert (∀ t, t - lv < timedelta_hours COOLDOWN_HOURS →
               upvote_bot (Some u) bot_id t s
               = (Return (ErrorBody ("Cooldown: next vote in " +:+
                    cooldown_msg (lv + timedelta_hours COOLDOWN_HOURS - t)), 403),
                  s)) as Hrefused.
  { intros t Ht.
    rewrite (upvote_bot_logged_in u uid bot_id bot t s Hid Hbot), Hlv.
    by apply check_write_cooling. }
  assert (s' = s) as Hs'.
  { subst s'. induction Htimes as [|t times Ht _ IH]; [done|].
    rewrite fmap_cons, serve_cons. cbn [handle].
    by rewrite (Hrefused t Ht). }
  split; [exact Hs'|]. split.
  - eapply Forall_impl; [exact Htimes|]. intros t Ht. cbn beta in Ht.
    by rewrite (Hrefused t Ht).
  - rewrite Hs'.
    rewrite (upvote_bot_logged_in u uid bot_id bot _ s Hid Hbot), Hlv.
    split.
    + destruct (fits_integer (or_zero (Bot.upvotes bot) + 1)) eqn:Hfits.
      * rewrite check_write_free; [done|done|]. intros ? [= <-]. lia.
      * rewrite check_write_overflow; [done|done|]. intros ? [= <-]. lia.
    + intros Hfits. rewrite check_write_free; [done|done|]. intros ? [= <-]. lia.
Qed.

End Served.

Lemma refused_votes_keep_entry_witness :
  serve None digits_int text_of
    (Upvote (Some (sample_user (PyStr "U1"))) "B1" <$> [1500; 2000; 1001])
    state1
  = state1.
Proof.
  apply (refused_votes_keep_entry None digits_int text_of
           (sample_user (PyStr "U1")) (PyStr "U1") "B1"
           (sample_bot "B1" (PyStr "U2") (Some 7)) 1000 [1500; 2000; 1001]
           state1 eq_refl eq_refl eq_refl).
  repeat constructor.
Defined.

(** X3. The waiting time shown never has more than 23 hours or 59 minutes,
    whatever the difference of the clocks; for a remaining time of less than
    a day it is the remaining whole seconds rounded down to the minute, and
    within the window of six hours it shows at most 6 hours. *)
Theorem cooldown_hm_bounds (td : Z) :
  let hours := (cooldown_hm td).1 in
  let minutes := (cooldown_hm td).2 in
  0 ≤ hours ≤ 23 ∧ 0 ≤ minutes ≤ 59
  ∧ (0 ≤ td < 86400 * 1000000 →
     hours * 3600 + minutes * 60 ≤ td / 1000000
     < hours * 3600 + minutes * 60 + 60)
  ∧ (0 ≤ td ≤ timedelta_hours COOLDOWN_HOURS →
     hours ≤ 6 ∧ (hours = 6 → minutes = 0)).
Proof.
  intros hours minutes. subst hours minutes.
  unfold cooldown_hm. rewrite div_eucl_div_mod. cbn [fst snd].
  assert (0 ≤ timedelta_seconds td < 86400) as Hsec
    by (unfold timedelta_seconds; apply Z.mod_pos_bound; lia).
  set (sec := timedelta_seconds td) in *.
  assert (sec = 3600 * (sec / 3600) + sec mod 3600) as Hdm
    by (apply Z.div_mod; lia).
  assert (0 ≤ sec mod 3600 < 3600) as Hmod by (apply Z.mod_pos_bound; lia).
  assert (sec mod 3600 = 60 * (sec mod 3600 / 60) + (sec mod 3600) mod 60)
    as Hdm' by (apply Z.div_mod; lia).
  assert (0 ≤ (sec mod 3600) mod 60 < 60) as Hmod'
    by (apply Z.mod_pos_bound; lia).
  split; [lia|]. split; [lia|]. split.
  - intros Htd. subst sec. rewrite (timedelta_seconds_small td Htd) in *. lia.
  - intros Htd. rewrite window_value in Htd.
    assert (0 ≤ td < 86400 * 1000000) as Hday by lia.
    subst sec. rewrite (timedelta_seconds_small td Hday) in *.
    assert (td / 1000000 ≤ 21600) by (apply Z.div_le_upper_bound; lia).
    lia.
Qed.

(** X4. Nobody and the empty user object are never administrator or owner:
    they may neither edit nor delete, whatever the bot and the configured
    administrator. A session holding the empty user object passes the login
    test of [edit_bot] and [delete_bot] and is then refused for lack of
    permission, the table staying as it is. *)
Theorem absent_user_denied (admin_id : option string)
    (py_int : string → option Z) (bot : option Bot.t) :
  can_edit_bot admin_id bot None = false
  ∧ can_delete_bot admin_id bot None = false
  ∧ can_edit_bot admin_id bot (Some ∅) = false
  ∧ can_delete_bot admin_id bot (Some ∅) = false
  ∧ (∀ method form bot_id s,
       is_Some (db s !! bot_id) →
       edit_bot admin_id py_int (Some ∅) method form bot_id s
       = (Ok (RedirectToBot bot_id),
          flash s "You don't have permission to edit this bot." "error")
       ∧ delete_bot admin_id (Some ∅) bot_id s
         = (RedirectToBot bot_id,
            flash s "You don't have permission to delete this bot." "error")).
Proof.
  assert (∀ b, can_edit_bot admin_id b (Some ∅) = false) as Hedit.
  { intros b. unfold can_edit_bot, is_admin, is_bot_owner, user_truthy.
    rewrite bool_decide_eq_false_2 by (intros H; by apply H).
    by destruct b. }
  split; [done|]. split; [done|]. split; [apply Hedit|]. split; [apply Hedit|].
  intros method form bot_id s [b Hb]. unfold edit_bot, delete_bot.
  rewrite Hb. cbv zeta.
  change (can_delete_bot admin_id (Some b) (Some ∅))
    with (can_edit_bot admin_id (Some b) (Some ∅)).
  by rewrite (Hedit (Some b)).
Qed.

Lemma absent_user_denied_witness :
  delete_bot (Some "None") (Some ∅) "B1" state0
  = (RedirectToBot "B1",
     flash state0 "You don't have permission to delete this bot." "error").
Proof.
  destruct (absent_user_denied (Some "None") digits_int None)
    as (_ & _ & _ & _ & H).
  apply (H "POST" ∅ "B1" state0). by eexists.
Defined.

(** ** Tags *)

Lemma split_comma_comma_free (x : string) :
  comma_free x = true → split_comma x = [x].
Proof.
  induction x as [|c x IH]; [done|]. cbn [comma_free split_comma].
  intros [Hc Hx]%andb_true_iff. apply negb_true_iff in Hc. rewrite Hc.
  by rewrite (IH Hx).
Qed.

Lemma split_comma_append (x y : string) :
  comma_free x = true →
  split_comma (x +:+ "," +:+ y) = x :: split_comma y.
Proof.
  induction x as [|c x IH].
  - intros _. reflexivity.
  - cbn [comma_free]. intros [Hc Hx]%andb_true_iff. apply negb_true_iff in Hc.
    change (String c x +:+ "," +:+ y) with (String c (x +:+ "," +:+ y)).
    cbn [split_comma]. rewrite Hc. by rewrite (IH Hx).
Qed.

Lemma split_join_comma (l : list string) :
  l ≠ [] →
  Forall (λ x, comma_free x = true) l →
  split_comma (join_comma l) = l.
Proof.
  intros Hne Hfree. induction Hfree as [|x l Hx Hl IH]; [done|].
  destruct l as [|y l].
  - by apply split_comma_comma_free.
  - change (join_comma (x :: y :: l)) with (x +:+ "," +:+ join_comma (y :: l)).
    rewrite (split_comma_append _ _ Hx). by rewrite IH.
Qed.

Lemma join_comma_empty (l : list string) :
  join_comma l = "" → l = [] ∨ l = [""].
Proof.
  destruct l as [|x [|y l]]; [by left|cbn; intros ->; by right|].
  change (join_comma (x :: y :: l)) with (x +:+ "," +:+ join_comma (y :: l)).
  intros H. destruct x; discriminate H.
Qed.

(** X5. Tags survive the comma-separated column: a list of tags without
    commas, other than the list holding just the empty tag, is read back
    from [",".join] by [bot.tags.split(",") if bot.tags else []] as it was
    written; the empty list comes back empty. *)
Theorem bot_tags_join_comma (l : list string) :
  Forall (λ x, comma_free x = true) l →
  l ≠ [""] →
  bot_tags (Some (join_comma l)) = l.
Proof.
  intros Hfree Hne. unfold bot_tags, str_truthy, opt_str.
  case_bool_decide as Hj.
  - apply split_join_comma; [|done]. by intros ->.
  - by destruct (join_comma_empty l Hj) as [->| ->].
Qed.

Lemma bot_tags_join_comma_witness :
  bot_tags (Some (join_comma ["Music"; "Fun"; "AI"])) = ["Music"; "Fun"; "AI"].
Proof.
  apply bot_tags_join_comma; [|discriminate].
  repeat constructor.
Defined.

(** ** Deleting a bot *)

(** X6. After [delete_bot] the bot is still listed exactly when it was
    listed and the actor may not delete it; the row that stays, every other
    row and the cooldown store are as before. Once a bot has been deleted,
    [upvote_bot] answers 404 for it. *)
Theorem delete_bot_effect (admin_id : option string) (session : option User)
    (bot_id : string) (s : State) :
  let s' := (delete_bot admin_id session bot_id s).2 in
  (is_Some (db s' !! bot_id)
   ↔ is_Some (db s !! bot_id)
     ∧ can_delete_bot admin_id (db s !! bot_id) session = false)
  ∧ (∀ b, db s' !! bot_id = Some b → db s !! bot_id = Some b)
  ∧ (∀ k, k ≠ bot_id → db s' !! k = db s !! k)
  ∧ user_votes s' = user_votes s
  ∧ (db s' !! bot_id = None →
     ∀ u now, upvote_bot (Some u) bot_id now s'
              = (Return (ErrorBody "Bot not found", 404), s')).
Proof.
  intros s'. subst s'.
  split; [|split; [|split; [|split; [apply delete_bot_user_votes|]]]].
  - unfold delete_bot. destruct session as [u|].
    + destruct (db s !! bot_id) as [bot|] eqn:Hbot.
      * destruct (can_delete_bot admin_id (Some bot) (Some u)) eqn:Hcan;
          cbn [negb snd flash with_db db].
        -- rewrite lookup_delete_eq. split; [by intros [? ?]|by intros [_ ?]].
        -- rewrite Hbot. by split; [|eexists].
      * cbn [snd flash db]. rewrite Hbot. split; [by intros [? ?]|by intros [[? ?] _]].
    + cbn [snd flash db]. split; [|by intros [? _]].
      intros Hsome. split; [done|]. by destruct (db s !! bot_id).
  - intros b. unfold delete_bot. destruct session as [u|]; [|done].
    destruct (db s !! bot_id) as [bot|] eqn:Hbot; [|by cbn; rewrite Hbot].
    destruct (negb _); cbn [snd flash with_db db];
      [by rewrite Hbot|by rewrite lookup_delete_eq].
  - intros k Hk. unfold delete_bot. destruct session as [u|]; [|done].
    destruct (db s !! bot_id) as [bot|]; [|done].
    destruct (negb _); cbn [snd flash with_db db]; [done|].
    by rewrite lookup_delete_ne.
  - intros Hgone u now. unfold upvote_bot. by rewrite Hgone.
Qed.

Lemma delete_bot_effect_witness :
  db (delete_bot None (Some (sample_user (PyStr "U2"))) "B1" state1).2 !! "B1"
  = None
  ∧ db (delete_bot None (Some (sample_user (PyStr "U1"))) "B1" state1).2 !! "B1"
    = Some (sample_bot "B1" (PyStr "U2") (Some 7)).
Proof.
  destruct (delete_bot_effect None (Some (sample_user (PyStr "U2"))) "B1" state1)
    as [Howner _].
  destruct (delete_bot_effect None (Some (sample_user (PyStr "U1"))) "B1" state1)
    as [Hother [Hsame _]].
  split.
  - apply eq_None_not_Some. intros Hsome. apply Howner in Hsome as [_ Hcan].
    vm_compute in Hcan. discriminate Hcan.
  - destruct Hother as [_ Hstays].
    destruct Hstays as [b Hb]; [split; [by eexists|reflexivity]|].
    rewrite Hb. f_equal. apply Hsame in Hb. vm_compute in Hb. by injection Hb.
Defined.

(** ** The cooldown store over sequences of requests *)

Lemma vote_cast_effect (admin_id : option string)
    (py_int : string → option Z) (column_text : PyVal → option string)
    (q : Request) (s : State) (k : string * string) (now : Z) :
  vote_cast q s = Some (k, now) →
  user_votes (handle admin_id py_int column_text q s)
  = <[k := now]> (user_votes s)
  ∧ (∀ lv, user_votes s !! k = Some lv →
           timedelta_hours COOLDOWN_HOURS ≤ now - lv).
Proof.
  destruct q as [se b n|se b n|se m f r d|se m f b|se b]; try discriminate.
  cbn [vote_cast handle]. destruct se as [u|]; [|discriminate].
  case_bool_decide as Hst; [|discriminate]. intros [= <- <-].
  revert Hst. unfold upvote_bot.
  destruct (db s !! b) as [bot|]; [|discriminate].
  destruct (u !! "id") as [uid|] eqn:Hid; [|discriminate]. cbv zeta.
  rewrite (dict_get_id u uid Hid).
  destruct (fits_integer _);
    (destruct (user_votes s !! vote_key uid (PyStr b)) as [lv|];
     [case_bool_decide as Hlt|]); try discriminate; intros _;
    (split; [done|]); intros ? [= <-]; lia.
Qed.

Lemma handle_entry (admin_id : option string) (py_int : string → option Z)
    (column_text : PyVal → option string) (q : Request) (s : State)
    (k : string * string) (t : Z) :
  user_votes s !! k = Some t →
  ∃ t', user_votes (handle admin_id py_int column_text q s) !! k = Some t'
        ∧ (t' = t ∨ timedelta_hours COOLDOWN_HOURS ≤ t' - t).
Proof.
  intros Ht.
  destruct (handle_user_votes admin_id py_int column_text q s)
    as [->|(k' & now & -> & Hfar)].
  - exists t. by split; [|left].
  - destruct (decide (k' = k)) as [->|Hne].
    + exists now. rewrite lookup_insert_eq. split; [done|]. right. by apply Hfar.
    + exists t. rewrite lookup_insert_ne by done. by split; [|left].
Qed.

Lemma votes_cast_cons (admin_id : option string) (py_int : string → option Z)
    (column_text : PyVal → option string) (q : Request) (qs : list Request)
    (s : State) :
  votes_cast admin_id py_int column_text (q :: qs) s
  = option_list (vote_cast q s)
    ++ votes_cast admin_id py_int column_text qs
         (handle admin_id py_int column_text q s).
Proof. cbn [votes_cast]. by destruct (vote_cast q s). Qed.

Lemma votes_cast_after_entry (admin_id : option string)
    (py_int : string → option Z) (column_text : PyVal → option string)
    (qs : list Request) (s : State) (k : string * string) (t lv : Z) :
  (k, t) ∈ votes_cast admin_id py_int column_text qs s →
  user_votes s !! k = Some lv →
  timedelta_hours COOLDOWN_HOURS ≤ t - lv.
Proof.
  revert s lv. induction qs as [|q qs IH]; intros s lv Hin Hlv.
  - by apply elem_of_nil in Hin.
  - rewrite votes_cast_cons in Hin. apply elem_of_app in Hin as [Hin|Hin].
    + destruct (vote_cast q s) as [[k' now]|] eqn:Hcast;
        [|by apply elem_of_nil in Hin].
      apply list_elem_of_singleton in Hin as [= <- <-].
      by apply (vote_cast_effect admin_id py_int column_text q s k t Hcast).
    + destruct (handle_entry admin_id py_int column_text q s k lv Hlv)
        as (t' & Ht' & Hstep).
      specialize (IH _ _ Hin Ht'). rewrite window_value in *. lia.
Qed.

(** X7. The rate limit over any sequence of requests (upvotes, page views,
    additions, edits, deletions, by anyone, at any clock values): two votes
    cast with success under the same key are at least one window apart, the
    later one after the earlier one, and a vote cast with success is at least
    one window after the entry the store held for its key at the start. *)
Theorem votes_cast_apart (admin_id : option string)
    (py_int : string → option Z) (column_text : PyVal → option string)
    (qs : list Request) (s : State) :
  (∀ (i j : nat) k ti tj,
     (i < j)%nat →
     votes_cast admin_id py_int column_text qs s !! i = Some (k, ti) →
     votes_cast admin_id py_int column_text qs s !! j = Some (k, tj) →
     timedelta_hours COOLDOWN_HOURS ≤ tj - ti)
  ∧ (∀ k t lv,
       (k, t) ∈ votes_cast admin_id py_int column_text qs s →
       user_votes s !! k = Some lv →
       timedelta_hours COOLDOWN_HOURS ≤ t - lv).
Proof.
  split; [|intros k t lv; apply votes_cast_after_entry].
  revert s. induction qs as [|q qs IH]; intros s i j k ti tj Hij Hi Hj.
  - cbn [votes_cast] in Hi. by rewrite lookup_nil in Hi.
  - rewrite votes_cast_cons in Hi, Hj.
    destruct (vote_cast q s) as [[k' now]|] eqn:Hcast; cbn [option_list app] in *.
    + destruct j as [|j]; [lia|]. cbn in Hj. destruct i as [|i].
      * injection Hi as -> ->.
        apply list_elem_of_lookup_2 in Hj.
        apply (votes_cast_after_entry admin_id py_int column_text qs _ k tj ti Hj).
        destruct (vote_cast_effect admin_id py_int column_text q s k ti Hcast)
          as [-> _].
        apply lookup_insert_eq.
      * cbn in Hi. eapply (IH _ i j k ti tj); [lia|exact Hi|exact Hj].
    + eapply (IH _ i j k ti tj); [lia|exact Hi|exact Hj].
Qed.

Lemma votes_cast_apart_witness :
  votes_cast None digits_int text_of
    [Upvote (Some (sample_user (PyStr "U1"))) "B1" 1000;
     Delete (Some (sample_user (PyStr "U2"))) "B1";
     Upvote (Some (sample_user (PyInt 5))) "B1" 1500;
     Upvote (Some (sample_user (PyStr "U1"))) "B1" 2000;
     Upvote (Some (sample_user (PyStr "U1"))) "B1" 21600001000]
    state0
  = [(("U1", "B1"), 1000)]
  ∧ timedelta_hours COOLDOWN_HOURS ≤ 21600001000 - 1000.
Proof.
  split; [reflexivity|].
  destruct (votes_cast_apart None digits_int text_of
    [Upvote (Some (sample_user (PyStr "U1"))) "B1" 1000;
     Upvote (Some (sample_user (PyStr "U1"))) "B1" 2000;
     Upvote (Some (sample_user (PyStr "U1"))) "B1" 21600001000]
    state0) as [Hapart _].
  apply (Hapart 0%nat 1%nat ("U1", "B1") 1000 21600001000);
    [lia|reflexivity|reflexivity].
Defined.

(** X8. No request removes an entry of the cooldown store or moves it
    back: after any sequence of requests a key that had an entry still has
    one, holding the same time or one at least a window later. *)
Theorem cooldown_entries_persist (admin_id : option string)
    (py_int : string → option Z) (column_text : PyVal → option string)
    (qs : list Request) (s : State) (k : string * string) (t : Z) :
  user_votes s !! k = Some t →
  ∃ t', user_votes (serve admin_id py_int column_text qs s) !! k = Some t'
        ∧ (t' = t ∨ timedelta_hours COOLDOWN_HOURS ≤ t' - t).
Proof.
  revert s t. induction qs as [|q qs IH]; intros s t Ht.
  - exists t. by split; [|left].
  - rewrite serve_cons.
    destruct (handle_entry admin_id py_int column_text q s k t Ht)
      as (t1 & Ht1 & Hstep).
    destruct (IH _ _ Ht1) as (t2 & Ht2 & Hrest).
    exists t2. split; [done|]. rewrite window_value in *. lia.
Qed.

Lemma cooldown_entries_persist_witness :
  user_votes
    (serve None digits_int text_of
       [Delete (Some (sample_user (PyStr "U2"))) "B1";
        Upvote (Some (sample_user (PyStr "U1"))) "B1" 2000]
       state1)
    !! ("U1", "B1")
  = Some 1000.
Proof.
  destruct (cooldown_entries_persist None digits_int text_of
              [Delete (Some (sample_user (PyStr "U2"))) "B1";
               Upvote (Some (sample_user (PyStr "U1"))) "B1" 2000]
              state1 ("U1", "B1") 1000 eq_refl) as (t' & Ht' & _).
  rewrite Ht'. vm_compute in Ht'. exact (eq_sym Ht').
Defined.

(** ** Editing a bot *)

Lemma set_listing_identity (b : Bot.t) (form : Form) :
  same_identity b (set_listing b form)
  ∧ Bot.upvotes (set_listing b form) = Bot.upvotes b
  ∧ Bot.certified (set_listing b form) = Bot.certified b
  ∧ Bot.server_count (set_listing b form) = Bot.server_count b.
Proof. by repeat split. Qed.

Lemma set_admin_fields_identity (b : Bot.t) (c : bool) (n : Z) :
  same_identity b (set_admin_fields b c n)
  ∧ Bot.upvotes (set_admin_fields b c n) = Bot.upvotes b.
Proof. by repeat split. Qed.

(** What [edit_bot] does, branch by branch. *)
Lemma edit_bot_cases (admin_id : option string) (py_int : string → option Z)
    (session : option User) (method : string) (form : Form)
    (bot_id : string) (s : State) :
  let r := (edit_bot admin_id py_int session method form bot_id s).1 in
  let s' := (edit_bot admin_id py_int session method form bot_id s).2 in
  (db s' = db s ∧ (∀ e, r = Err e →
     s' = s ∧ (e = ValueError ∨ e = OverflowError)
     ∧ is_admin admin_id session = true ∧ method = "POST"))
  ∨ (∃ bot b',
       db s !! bot_id = Some bot
       ∧ can_edit_bot admin_id (Some bot) session = true
       ∧ method = "POST"
       ∧ r = Ok (RedirectToBot bot_id)
       ∧ db s' = <[bot_id := b']> (db s)
       ∧ (is_admin admin_id session = false ∧ b' = set_listing bot form
          ∨ is_admin admin_id session = true
            ∧ ∃ n, form_server_count py_int form = Ok n
                   ∧ fits_integer n = true
                   ∧ b' = set_admin_fields (set_listing bot form)
                            (form_contains form "certified") n)).
Proof.
  cbv zeta. unfold edit_bot.
  destruct session as [u|]; [|by left].
  destruct (db s !! bot_id) as [bot|] eqn:Hbot; [|by left]. cbv zeta.
  destruct (can_edit_bot admin_id (Some bot) (Some u)) eqn:Hcan;
    cbn [negb]; [|by left].
  case_bool_decide as Hpost; [|by left].
  destruct (is_admin admin_id (Some u)) eqn:Hadmin.
  - destruct (form_server_count py_int form) as [n|e] eqn:Hcount.
    + destruct (fits_integer n) eqn:Hfits.
      * right. exists bot. eexists. repeat (split; [done|]).
        right. split; [done|]. by exists n.
      * left. split; [done|]. intros e [= <-].
        split; [done|]. split; [by right|]. by split.
    + left. split; [done|]. intros e' [= <-]. split; [done|].
      split; [|done]. left. unfold form_server_count in Hcount.
      destruct (form_get form "server_count"); [|discriminate].
      destruct (py_int _); [discriminate Hcount|by injection Hcount].
  - right. exists bot. eexists. repeat (split; [done|]). by left.
Qed.

(** X9. [edit_bot] changes the table only on a POST by a logged-in actor
    who may edit the bot; it then answers with the redirect to the bot's
    page. It never lists or unlists a bot, never touches another row, and
    never touches the cooldown store. *)
Theorem edit_bot_authorized (admin_id : option string)
    (py_int : string → option Z) (session : option User) (method : string)
    (form : Form) (bot_id : string) (s : State) :
  let r := (edit_bot admin_id py_int session method form bot_id s).1 in
  let s' := (edit_bot admin_id py_int session method form bot_id s).2 in
  (db s' ≠ db s →
   method = "POST" ∧ is_Some session ∧ r = Ok (RedirectToBot bot_id)
   ∧ ∃ bot, db s !! bot_id = Some bot
            ∧ can_edit_bot admin_id (Some bot) session = true)
  ∧ (∀ k, is_Some (db s' !! k) ↔ is_Some (db s !! k))
  ∧ (∀ k, k ≠ bot_id → db s' !! k = db s !! k)
  ∧ user_votes s' = user_votes s.
Proof.
  intros r s'.
  destruct (edit_bot_cases admin_id py_int session method form bot_id s)
    as [[Hsame _]|(bot & b' & Hbot & Hcan & Hpost & Hr & Hdb & _)];
    fold r s' in Hsame || fold r s' in Hr, Hdb.
  - split; [by intros []|]. rewrite Hsame.
    split; [done|]. split; [done|]. apply edit_bot_user_votes.
  - split; [|split; [|split; [|apply edit_bot_user_votes]]].
    + intros _. repeat (split; [done|]).
      split; [|split; [done|by exists bot]].
      destruct session; [by eexists|discriminate Hcan].
    + intros k. rewrite Hdb. destruct (decide (k = bot_id)) as [->|Hne].
      * rewrite lookup_insert_eq, Hbot. by split; eexists.
      * by rewrite lookup_insert_ne.
    + intros k Hne. rewrite Hdb. by rewrite lookup_insert_ne.
Qed.

Lemma edit_bot_authorized_witness :
  db (edit_bot None digits_int (Some (sample_user (PyStr "U2"))) "POST"
        sample_form "B1" state0).2 !! "B1"
  = Some (set_listing (sample_bot "B1" (PyStr "U2") (Some 7)) sample_form)
  ∧ edit_bot None digits_int (Some (sample_user (PyStr "U1"))) "POST"
      sample_form "B1" state0
    = (Ok (RedirectToBot "B1"),
       flash state0 "You don't have permission to edit this bot." "error").
Proof.
  split; [|reflexivity].
  destruct (edit_bot_authorized None digits_int
              (Some (sample_user (PyStr "U2"))) "POST" sample_form "B1" state0)
    as [Hchanged _].
  destruct Hchanged as (_ & _ & _ & bot & Hbot & _).
  - intros Heq. apply (f_equal (λ d, Bot.description <$> d !! "B1")) in Heq.
    vm_compute in Heq. discriminate Heq.
  - vm_compute in Hbot. injection Hbot as <-. reflexivity.
Defined.

(** X10. Whoever edits, the row keeps its id, name, owner, date, avatar,
    banner and upvote count; and unless the editor is the administrator it
    keeps its certified flag and its server count. *)
Theorem edit_bot_privileges (admin_id : option string)
    (py_int : string → option Z) (session : option User) (method : string)
    (form : Form) (bot_id : string) (s : State) (b b' : Bot.t) :
  db s !! bot_id = Some b →
  db (edit_bot admin_id py_int session method form bot_id s).2 !! bot_id
  = Some b' →
  same_identity b b'
  ∧ Bot.upvotes b' = Bot.upvotes b
  ∧ (is_admin admin_id session = false →
     Bot.certified b' = Bot.certified b
     ∧ Bot.server_count b' = Bot.server_count b).
Proof.
  intros Hb Hb'.
  destruct (edit_bot_cases admin_id py_int session method form bot_id s)
    as [[Hsame _]|(bot & b1 & Hbot & _ & _ & _ & Hdb & Hrow)].
  - rewrite Hsame, Hb in Hb'. injection Hb' as <-. by repeat split.
  - rewrite Hdb, lookup_insert_eq in Hb'. injection Hb' as <-.
    rewrite Hb in Hbot. injection Hbot as <-.
    destruct Hrow as [[Hadmin ->]|(Hadmin & n & _ & _ & ->)].
    + by repeat split.
    + split; [by repeat split|]. split; [done|]. intros Hno. congruence.
Qed.

Lemma edit_bot_privileges_witness :
  ∃ b', db (edit_bot (Some "A") digits_int (Some (sample_user (PyStr "U2")))
              "POST" sample_form "B1" state0).2 !! "B1" = Some b'
        ∧ Bot.owner_id b' = PyStr "U2"
        ∧ Bot.certified b' = Some false ∧ Bot.server_count b' = Some 0
        ∧ Bot.tags b' = Some "Music,Fun".
Proof.
  eexists. split; [reflexivity|].
  destruct (edit_bot_privileges (Some "A") digits_int
              (Some (sample_user (PyStr "U2"))) "POST" sample_form "B1" state0
              (sample_bot "B1" (PyStr "U2") (Some 7)) _ eq_refl eq_refl)
    as ((_ & _ & Howner & _) & _ & Hfields).
  split; [exact Howner|].
  destruct (Hfields eq_refl) as [Hc Hn].
  split; [exact Hc|]. split; [exact Hn|reflexivity].
Defined.

(** X11. An edit is all or nothing: [edit_bot] fails only for the
    administrator on a POST whose server count is not an integer
    ([ValueError]) or does not fit the column ([OverflowError]), and then
    none of the submitted fields is stored. *)
Theorem edit_bot_failure (admin_id : option string)
    (py_int : string → option Z) (session : option User) (method : string)
    (form : Form) (bot_id : string) (s : State) (e : Exc) :
  (edit_bot admin_id py_int session method form bot_id s).1 = Err e →
  (edit_bot admin_id py_int session method form bot_id s).2 = s
  ∧ (e = ValueError ∨ e = OverflowError)
  ∧ is_admin admin_id session = true ∧ method = "POST".
Proof.
  intros He.
  destruct (edit_bot_cases admin_id py_int session method form bot_id s)
    as [[_ Herr]|(bot & b1 & _ & _ & _ & Hr & _)].
  - by apply Herr.
  - rewrite Hr in He. discriminate He.
Qed.

Lemma edit_bot_failure_witness :
  edit_bot (Some "A") digits_int (Some (sample_user (PyStr "A"))) "POST"
    (<["server_count" := ["many"]]> sample_form) "B1" state0
  = (Err ValueError, state0).
Proof.
  apply injective_projections; [reflexivity|].
  by apply (edit_bot_failure (Some "A") digits_int
              (Some (sample_user (PyStr "A"))) "POST"
              (<["server_count" := ["many"]]> sample_form) "B1" state0
              ValueError).
Defined.

(** ** Adding a bot *)

Lemma new_bot_fields (column_text : PyVal → option string)
    (bot_id : option string) (form : Form) (bot_data : gmap string PyVal)
    (owner_id owner_name : PyVal) (added_date : string) (bot : Bot.t) :
  new_bot column_text bot_id form bot_data owner_id owner_name added_date
  = Some bot →
  bot_id = Some (Bot.id bot)
  ∧ (∃ owner, column_text owner_id = Some owner
              ∧ Bot.owner_id bot = PyStr owner)
  ∧ Bot.upvotes bot = Some 0 ∧ Bot.server_count bot = Some 0
  ∧ Bot.certified bot = Some false
  ∧ Bot.tags bot = Some (join_comma (form_getlist form "tags")).
Proof.
  unfold new_bot. destruct bot_id as [k|]; [|discriminate]. cbn [mbind option_bind].
  destruct (column_text (dict_get bot_data "username")) as [name|];
    [|discriminate]. cbn [mbind option_bind].
  destruct (column_text owner_id) as [owner|]; [|discriminate].
  cbn [mbind option_bind].
  destruct (column_text owner_name) as [oname|]; [|discriminate].
  cbn [mbind option_bind]. intros [= <-]. cbn.
  split; [done|]. split; [by exists owner|done].
Qed.

(** What [add_bot] does to the table: nothing, or one new row. *)
Lemma add_bot_cases (column_text : PyVal → option string)
    (session : option User) (method : string) (form : Form) (r : HttpReply)
    (added_date : string) (s : State) :
  let v := (add_bot column_text session method form r added_date s).1 in
  let s' := (add_bot column_text session method form r added_date s).2 in
  (db s' = db s ∧ ∀ k, v ≠ Ok (RedirectToBot k))
  ∨ (∃ u owner_id owner_name bot,
       session = Some u ∧ method = "POST"
       ∧ u !! "id" = Some owner_id ∧ u !! "username" = Some owner_name
       ∧ status_code r = 200
       ∧ py_truthy (dict_get (json r) "bot") = true
       ∧ new_bot column_text (form_get form "bot_id") form (json r)
           owner_id owner_name added_date = Some bot
       ∧ db s !! Bot.id bot = None
       ∧ v = Ok (RedirectToBot (Bot.id bot))
       ∧ db s' = <[Bot.id bot := bot]> (db s)).
Proof.
  cbv zeta. unfold add_bot.
  destruct session as [u|]; [|by left].
  case_bool_decide as Hpost; [|by left]. cbv zeta.
  case_bool_decide as Hlisted; [by left|].
  case_bool_decide as Hstatus; [by left|].
  destruct (py_truthy (dict_get (json r) "bot")) eqn:Hflag; cbn [negb];
    [|by left].
  destruct (u !! "id") as [owner_id|] eqn:Hid; [|by left].
  destruct (u !! "username") as [owner_name|] eqn:Hname; [|by left].
  destruct (new_bot column_text (form_get form "bot_id") form (json r)
              owner_id owner_name added_date) as [bot|] eqn:Hnew; [|by left].
  right. exists u, owner_id, owner_name, bot.
  repeat (split; [done|]).
  split; [|done].
  destruct (new_bot_fields _ _ _ _ _ _ _ _ Hnew) as [Hk _].
  rewrite Hk in Hlisted. cbn in Hlisted.
  destruct (db s !! Bot.id bot); [|done]. exfalso. apply Hlisted. by eexists.
Qed.

Lemma add_bot_keeps_rows (column_text : PyVal → option string)
    (session : option User) (method : string) (form : Form) (r : HttpReply)
    (added_date : string) (s : State) (k : string) (b : Bot.t) :
  db s !! k = Some b →
  db (add_bot column_text session method form r added_date s).2 !! k = Some b.
Proof.
  intros Hb.
  destruct (add_bot_cases column_text session method form r added_date s)
    as [[Hsame _]|(u & oid & oname & bot & _ & _ & _ & _ & _ & _ & _ & Hfree & _ & Hdb)].
  - by rewrite Hsame.
  - rewrite Hdb. rewrite lookup_insert_ne; [done|]. intros Heq.
    rewrite Heq in Hfree. congruence.
Qed.

(** X12. [add_bot] never touches a listed bot: every row of the table is
    still there, unchanged, whatever is submitted; at most the row of the
    submitted id is new; and the cooldown store is as before. *)
Theorem add_bot_keeps_listings (column_text : PyVal → option string)
    (session : option User) (method : string) (form : Form) (r : HttpReply)
    (added_date : string) (s : State) :
  let s' := (add_bot column_text session method form r added_date s).2 in
  (∀ k b, db s !! k = Some b → db s' !! k = Some b)
  ∧ (∀ k, form_get form "bot_id" ≠ Some k → db s' !! k = db s !! k)
  ∧ user_votes s' = user_votes s.
Proof.
  intros s'. split; [|split; [|apply add_bot_user_votes]].
  - intros k b. apply add_bot_keeps_rows.
  - intros k Hk.
    destruct (add_bot_cases column_text session method form r added_date s)
      as [[Hsame _]|(u & oid & oname & bot & _ & _ & _ & _ & _ & _ & Hnew & _ & _ & Hdb)];
      fold s' in Hsame || fold s' in Hdb.
    + by rewrite Hsame.
    + rewrite Hdb. rewrite lookup_insert_ne; [done|]. intros Heq.
      destruct (new_bot_fields _ _ _ _ _ _ _ _ Hnew) as [Hid _]. congruence.
Qed.

Lemma add_bot_keeps_listings_witness :
  add_bot text_of (Some (sample_user (PyStr "U1"))) "POST"
    (<["bot_id" := ["B1"]]> sample_add_form) sample_reply "2024-01-01T00:00:00"
    state0
  = (Ok (RedirectTo "add_bot"),
     flash state0 "This bot is already listed." "error").
Proof.
  apply injective_projections; [reflexivity|].
  destruct (add_bot_keeps_listings text_of (Some (sample_user (PyStr "U1")))
              "POST" (<["bot_id" := ["B1"]]> sample_add_form) sample_reply
              "2024-01-01T00:00:00" state0) as [Hkept _].
  specialize (Hkept "B1" _ eq_refl). reflexivity.
Defined.

(** X13. Who lists a bot owns it: when [add_bot] succeeds for an actor whose
    id is stored as its [str()], the new row is stored under the submitted
    id, which was free, starts with 0 upvotes, 0 servers and no
    certification, and its creator may edit and delete it; deleting it at
    once gives back the table as it was. *)
Theorem added_bot_owned_by_creator (admin_id : option string)
    (column_text : PyVal → option string) (u : User) (uid : PyVal)
    (method : string) (form : Form) (r : HttpReply) (added_date : string)
    (s : State) (k : string) :
  u !! "id" = Some uid →
  column_text uid = Some (py_str uid) →
  (add_bot column_text (Some u) method form r added_date s).1
  = Ok (RedirectToBot k) →
  let s' := (add_bot column_text (Some u) method form r added_date s).2 in
  ∃ b, db s' !! k = Some b
       ∧ form_get form "bot_id" = Some k ∧ db s !! k = None
       ∧ Bot.id b = k ∧ Bot.owner_id b = PyStr (py_str uid)
       ∧ Bot.upvotes b = Some 0 ∧ Bot.server_count b = Some 0
       ∧ Bot.certified b = Some false
       ∧ can_edit_bot admin_id (Some b) (Some u) = true
       ∧ can_delete_bot admin_id (Some b) (Some u) = true
       ∧ db (delete_bot admin_id (Some u) k s').2 = db s.
Proof.
  intros Hid Htext Hv s'.
  destruct (add_bot_cases column_text (Some u) method form r added_date s)
    as [[_ Hno]|(u' & oid & oname & bot & [= <-] & _ & Hoid & _ & _ & _ & Hnew
                 & Hfree & Hv' & Hdb)];
    [by destruct (Hno k)|].
  fold s' in Hdb. rewrite Hv' in Hv. injection Hv as <-.
  rewrite Hid in Hoid. injection Hoid as <-.
  destruct (new_bot_fields _ _ _ _ _ _ _ _ Hnew)
    as (Hk & (owner & Howner & Hobot) & Hup & Hsc & Hcert & _).
  rewrite Htext in Howner. injection Howner as <-.
  assert (is_bot_owner (Some bot) (Some u) = true) as Hown.
  { rewrite (is_bot_owner_with_id bot u uid Hid), Hobot.
    by apply bool_decide_eq_true_2. }
  assert (can_delete_bot admin_id (Some bot) (Some u) = true) as Hcan.
  { unfold can_delete_bot. rewrite Hown. apply orb_true_r. }
  assert (db s' !! Bot.id bot = Some bot) as Hrow
    by (rewrite Hdb; apply lookup_insert_eq).
  assert (db (delete_bot admin_id (Some u) (Bot.id bot) s').2 = db s) as Hdel.
  { unfold delete_bot. rewrite Hrow. cbv zeta. rewrite Hcan.
    cbn [negb snd flash with_db db]. rewrite Hdb.
    by apply delete_insert_id. }
  exists bot. split; [exact Hrow|]. split; [exact Hk|]. split; [exact Hfree|].
  split; [done|]. split; [exact Hobot|]. split; [exact Hup|].
  split; [exact Hsc|]. split; [exact Hcert|]. split; [exact Hcan|].
  split; [exact Hcan|exact Hdel].
Qed.

Lemma added_bot_owned_by_creator_witness :
  ∃ b, db (add_bot text_of (Some (sample_user (PyInt 5))) "POST"
             sample_add_form sample_reply "2024-01-01T00:00:00" state0).2
         !! "B2" = Some b
       ∧ Bot.owner_id b = PyStr "5"
       ∧ can_delete_bot None (Some b) (Some (sample_user (PyInt 5))) = true.
Proof.
  destruct (added_bot_owned_by_creator None text_of (sample_user (PyInt 5))
              (PyInt 5) "POST" sample_add_form sample_reply
              "2024-01-01T00:00:00" state0 "B2" eq_refl eq_refl eq_refl)
    as (b & Hb & _ & _ & _ & Howner & _ & _ & _ & _ & Hcan & _).
  exists b. split; [exact Hb|]. split; [exact Howner|exact Hcan].
Defined.

(** X14. Deleting a bot and listing it again does not clear its cooldowns:
    an actor who voted less than a window ago still has the entry after a
    [delete_bot] and an [add_bot] by anyone, and a vote for the bot is
    answered 403 if the bot is listed again and 404 if it is not. *)
Theorem relisted_bot_keeps_cooldown (admin_id : option string)
    (column_text : PyVal → option string) (u : User) (uid : PyVal)
    (bot_id : string) (lv now : Z) (deleter adder : option User)
    (method : string) (form : Form) (r : HttpReply) (added_date : string)
    (s : State) :
  u !! "id" = Some uid →
  user_votes s !! vote_key uid (PyStr bot_id) = Some lv →
  now - lv < timedelta_hours COOLDOWN_HOURS →
  let s1 := (delete_bot admin_id deleter bot_id s).2 in
  let s2 := (add_bot column_text adder method form r added_date s1).2 in
  user_votes s2 !! vote_key uid (PyStr bot_id) = Some lv
  ∧ (is_Some (db s2 !! bot_id) →
     status_of (upvote_bot (Some u) bot_id now s2).1 = Some 403)
  ∧ (db s2 !! bot_id = None →
     status_of (upvote_bot (Some u) bot_id now s2).1 = Some 404).
Proof.
  intros Hid Hlv Hlt s1 s2.
  assert (user_votes s2 !! vote_key uid (PyStr bot_id) = Some lv) as Hlv2.
  { subst s2 s1. by rewrite add_bot_user_votes, delete_bot_user_votes. }
  split; [exact Hlv2|]. split.
  - intros [bot Hbot].
    rewrite (upvote_bot_logged_in u uid bot_id bot now s2 Hid Hbot), Hlv2.
    by rewrite check_write_cooling.
  - intros Hnone. unfold upvote_bot. by rewrite Hnone.
Qed.

Lemma relisted_bot_keeps_cooldown_witness :
  let s1 := (delete_bot None (Some (sample_user (PyStr "U2"))) "B1" state1).2 in
  let s2 := (add_bot text_of (Some (sample_user (PyStr "U3"))) "POST"
               (<["bot_id" := ["B1"]]> sample_add_form) sample_reply
               "2024-01-01T00:00:00" s1).2 in
  db s1 !! "B1" = None
  ∧ Bot.owner_id <$> db s2 !! "B1" = Some (PyStr "U3")
  ∧ status_of (upvote_bot (Some (sample_user (PyStr "U1"))) "B1" 2000 s2).1
    = Some 403.
Proof.
  cbv zeta. split; [reflexivity|]. split; [reflexivity|].
  destruct (relisted_bot_keeps_cooldown None text_of (sample_user (PyStr "U1"))
              (PyStr "U1") "B1" 1000 2000 (Some (sample_user (PyStr "U2")))
              (Some (sample_user (PyStr "U3"))) "POST"
              (<["bot_id" := ["B1"]]> sample_add_form) sample_reply
              "2024-01-01T00:00:00" state1 eq_refl eq_refl eq_refl)
    as (_ & Hlisted & _).
  apply Hlisted. by eexists.
Defined.

(** ** Requests without a session *)

(** X15. A request that comes without a session user changes neither the
    table nor the cooldown store, whichever handler it is for. *)
Theorem anonymous_changes_nothing (admin_id : option string)
    (py_int : string → option Z) (column_text : PyVal → option string)
    (q : Request) (s : State) :
  request_session q = None →
  db (handle admin_id py_int column_text q s) = db s
  ∧ user_votes (handle admin_id py_int column_text q s) = user_votes s.
Proof.
  destruct q as [se b n|se b n|se m f r d|se m f b|se b];
    cbn [request_session handle]; intros ->; try done.
  split; apply bot_detail_stores.
Qed.

Lemma anonymous_changes_nothing_witness :
  db (handle None digits_int text_of (Delete None "B1") state0) = db state0
  ∧ db (handle None digits_int text_of
          (Add None "POST" sample_add_form sample_reply "2024-01-01T00:00:00")
          state0)
    = db state0.
Proof.
  split.
  - by apply (anonymous_changes_nothing None digits_int text_of
                (Delete None "B1") state0).
  - by apply (anonymous_changes_nothing None digits_int text_of
                (Add None "POST" sample_add_form sample_reply
                   "2024-01-01T00:00:00") state0).
Defined.

(** ** The table over sequences of requests *)

Lemma same_identity_refl (b : Bot.t) : same_identity b b.
Proof. by repeat split. Qed.

Lemma same_identity_trans (b1 b2 b3 : Bot.t) :
  same_identity b1 b2 → same_identity b2 b3 → same_identity b1 b3.
Proof.
  unfold same_identity. intros (? & ? & ? & ? & ? & ? & ?) (? & ? & ? & ? & ? & ? & ?).
  repeat split; congruence.
Qed.

(** What [upvote_bot] does to the table: nothing, or one more vote on the
    row of the bot. *)
Lemma upvote_bot_cases_db (session : option User) (bot_id : string) (now : Z)
    (s : State) :
  (db (upvote_bot session bot_id now s).2 = db s
   ∧ status_of (upvote_bot session bot_id now s).1 ≠ Some 200)
  ∨ (∃ bot, db s !! bot_id = Some bot
            ∧ status_of (upvote_bot session bot_id now s).1 = Some 200
            ∧ db (upvote_bot session bot_id now s).2
              = <[bot_id := Bot.set_upvotes bot (or_zero (Bot.upvotes bot) + 1)]>
                  (db s)).
Proof.
  upvote_cases session s bot_id; try (by left).
  - right. by exists bot.
  - right. by exists bot.
Qed.

Lemma db_keyed_insert (d : gmap string Bot.t) (k : string) (b : Bot.t) :
  db_keyed d → Bot.id b = k → db_keyed (<[k := b]> d).
Proof.
  intros Hd Hb k' b' Hk'. destruct (decide (k = k')) as [<-|Hne].
  - rewrite lookup_insert_eq in Hk'. by injection Hk' as <-.
  - rewrite lookup_insert_ne in Hk' by done. by apply Hd.
Qed.

Lemma db_keyed_delete (d : gmap string Bot.t) (k : string) :
  db_keyed d → db_keyed (delete k d).
Proof.
  intros Hd k' b' Hk'. apply lookup_delete_Some in Hk' as [_ Hk']. by apply Hd.
Qed.

Lemma handle_db_keyed (admin_id : option string) (py_int : string → option Z)
    (column_text : PyVal → option string) (q : Request) (s : State) :
  db_keyed (db s) → db_keyed (db (handle admin_id py_int column_text q s)).
Proof.
  intros Hs. destruct q as [se b n|se b n|se m f r d|se m f b|se b];
    cbn [handle].
  - destruct (upvote_bot_cases_db se b n s) as [[-> _]|(bot & Hbot & _ & ->)];
      [done|].
    apply db_keyed_insert; [done|]. apply (Hs b bot Hbot).
  - by destruct (bot_detail_stores admin_id se b n s) as [_ ->].
  - destruct (add_bot_cases column_text se m f r d s)
      as [[-> _]|(? & ? & ? & bot & _ & _ & _ & _ & _ & _ & _ & _ & _ & ->)];
      [done|].
    by apply db_keyed_insert.
  - destruct (edit_bot_cases admin_id py_int se m f b s)
      as [[-> _]|(bot & b' & Hbot & _ & _ & _ & -> & Hrow)]; [done|].
    apply db_keyed_insert; [done|]. apply Hs in Hbot.
    by destruct Hrow as [[_ ->]|(_ & n & _ & _ & ->)].
  - unfold delete_bot. destruct se as [u|]; [|done].
    destruct (db s !! b) as [bot|]; [|done].
    destruct (negb _); cbn [snd flash with_db db]; [done|].
    by apply db_keyed_delete.
Qed.

(** X16. Every row stays under its own id: if each row of the table is
    stored under the value of its [id] column, the same holds after any
    sequence of requests; in particular in every table built from the empty
    one. *)
Theorem serve_keeps_ids (admin_id : option string)
    (py_int : string → option Z) (column_text : PyVal → option string)
    (qs : list Request) (s : State) :
  db_keyed (db s) →
  db_keyed (db (serve admin_id py_int column_text qs s)).
Proof.
  revert s. induction qs as [|q qs IH]; intros s Hs; [done|].
  rewrite serve_cons. apply IH. by apply handle_db_keyed.
Qed.

Lemma serve_keeps_ids_witness :
  ∃ b, db (serve None digits_int text_of
             [Add (Some (sample_user (PyStr "U1"))) "POST" sample_add_form
                sample_reply "2024-01-01T00:00:00";
              Upvote (Some (sample_user (PyStr "U1"))) "B2" 1000;
              Edit (Some (sample_user (PyStr "U1"))) "POST" sample_form "B2"]
             (mkState ∅ ∅ [])) !! "B2" = Some b
       ∧ Bot.id b = "B2" ∧ Bot.upvotes b = Some 1.
Proof.
  eexists. split; [reflexivity|]. split; [|reflexivity].
  apply (serve_keeps_ids None digits_int text_of
           [Add (Some (sample_user (PyStr "U1"))) "POST" sample_add_form
              sample_reply "2024-01-01T00:00:00";
            Upvote (Some (sample_user (PyStr "U1"))) "B2" 1000;
            Edit (Some (sample_user (PyStr "U1"))) "POST" sample_form "B2"]
           (mkState ∅ ∅ [])).
  - intros k b Hk. cbn in Hk. by rewrite lookup_empty in Hk.
  - reflexivity.
Defined.

Lemma votes_for_app (k : string) (l1 l2 : list (string * string * Z)) :
  votes_for k (l1 ++ l2) = votes_for k l1 + votes_for k l2.
Proof. unfold votes_for. rewrite filter_app, length_app. lia. Qed.

(** One request other than a deletion, seen from a listed bot. *)
Lemma handle_row (admin_id : option string) (py_int : string → option Z)
    (column_text : PyVal → option string) (q : Request) (s : State)
    (k : string) (b : Bot.t) :
  is_delete q = false →
  db s !! k = Some b →
  ∃ b', db (handle admin_id py_int column_text q s) !! k = Some b'
        ∧ same_identity b b'
        ∧ or_zero (Bot.upvotes b')
          = or_zero (Bot.upvotes b) + votes_for k (option_list (vote_cast q s)).
Proof.
  intros Hq Hb. destruct q as [se b0 n|se b0 n|se m f r d|se m f b0|se b0];
    [| | | |discriminate Hq]; cbn [handle vote_cast].
  - destruct (upvote_bot_cases_db se b0 n s)
      as [[Hdb Hst]|(bot & Hbot & Hst & Hdb)]; rewrite Hdb.
    + exists b. split; [done|]. split; [apply same_identity_refl|].
      destruct se as [u|]; [|unfold votes_for; cbn; lia].
      rewrite bool_decide_eq_false_2 by done. unfold votes_for; cbn; lia.
    + destruct se as [u|]; [|discriminate Hst].
      rewrite bool_decide_eq_true_2 by done.
      destruct (decide (b0 = k)) as [->|Hne].
      * rewrite Hb in Hbot. injection Hbot as <-.
        eexists. rewrite lookup_insert_eq. split; [done|].
        split; [by repeat split|].
        unfold votes_for. cbn. rewrite decide_True by done. unfold votes_for; cbn; lia.
      * exists b. rewrite lookup_insert_ne by done. split; [done|].
        split; [apply same_identity_refl|].
        unfold votes_for. cbn. rewrite decide_False by done. unfold votes_for; cbn; lia.
  - destruct (bot_detail_stores admin_id se b0 n s) as [_ ->].
    exists b. split; [done|]. split; [apply same_identity_refl|]. unfold votes_for; cbn; lia.
  - exists b. split.
    + by apply (add_bot_keeps_rows column_text).
    + split; [apply same_identity_refl|]. unfold votes_for; cbn; lia.
  - destruct (edit_bot_cases admin_id py_int se m f b0 s)
      as [[-> _]|(bot & b' & Hbot & _ & _ & _ & -> & Hrow)].
    + exists b. split; [done|]. split; [apply same_identity_refl|]. unfold votes_for; cbn; lia.
    + destruct (decide (b0 = k)) as [->|Hne].
      * rewrite Hb in Hbot. injection Hbot as <-.
        exists b'. rewrite lookup_insert_eq. split; [done|].
        destruct Hrow as [[_ ->]|(_ & n & _ & _ & ->)];
          (split; [by repeat split|unfold votes_for; cbn; lia]).
      * exists b. rewrite lookup_insert_ne by done. split; [done|].
        split; [apply same_identity_refl|]. unfold votes_for; cbn; lia.
Qed.

(** X17. As long as nothing is deleted, a listed bot stays listed under the
    same id, name, owner, date, avatar and banner, and its upvote count (0
    when missing) grows by exactly the number of votes cast for it with
    success. *)
Theorem upvotes_counted (admin_id : option string)
    (py_int : string → option Z) (column_text : PyVal → option string)
    (qs : list Request) (s : State) (k : string) (b : Bot.t) :
  Forall (λ q, is_delete q = false) qs →
  db s !! k = Some b →
  ∃ b', db (serve admin_id py_int column_text qs s) !! k = Some b'
        ∧ same_identity b b'
        ∧ or_zero (Bot.upvotes b')
          = or_zero (Bot.upvotes b)
            + votes_for k (votes_cast admin_id py_int column_text qs s).
Proof.
  intros Hqs. revert s b. induction Hqs as [|q qs Hq _ IH]; intros s b Hb.
  - exists b. split; [done|]. split; [apply same_identity_refl|].
    unfold votes_for. cbn. lia.
  - rewrite serve_cons, votes_cast_cons, votes_for_app.
    destruct (handle_row admin_id py_int column_text q s k b Hq Hb)
      as (b1 & Hb1 & Hsame1 & Hcount1).
    destruct (IH _ _ Hb1) as (b2 & Hb2 & Hsame2 & Hcount2).
    exists b2. split; [done|].
    split; [by apply (same_identity_trans b b1 b2)|]. lia.
Qed.

Lemma upvotes_counted_witness :
  Bot.upvotes
    <$> db (serve None digits_int text_of
              [Upvote (Some (sample_user (PyStr "U1"))) "B1" 1000;
               Upvote (Some (sample_user (PyStr "U1"))) "B1" 1001;
               Edit (Some (sample_user (PyStr "U2"))) "POST" sample_form "B1";
               Upvote (Some (sample_user (PyStr "U3"))) "B1" 1002]
              state0) !! "B1"
  = Some (Some 9).
Proof.
  destruct (upvotes_counted None digits_int text_of
              [Upvote (Some (sample_user (PyStr "U1"))) "B1" 1000;
               Upvote (Some (sample_user (PyStr "U1"))) "B1" 1001;
               Edit (Some (sample_user (PyStr "U2"))) "POST" sample_form "B1";
               Upvote (Some (sample_user (PyStr "U3"))) "B1" 1002]
              state0 "B1" (sample_bot "B1" (PyStr "U2") (Some 7)))
    as (b' & Hb' & _ & Hcount); [repeat constructor|reflexivity|].
  rewrite Hb'. cbn [fmap option_fmap option_map].
  vm_compute in Hb'. by injection Hb' as <-.
Defined.

(** ** Order of the home page *)

Section Sorting.

Context {A : Type} (key : A → Z).

Lemma descending_cons (x : A) (l : list A) :
  descending key (x :: l)
  ↔ Forall (λ y, key y ≤ key x) l ∧ descending key l.
Proof.
  split.
  - intros Hd. split.
    + apply Forall_lookup. intros i y Hy.
      by apply (Hd 0%nat (S i) x y); [lia|..].
    + intros i j a b Hij Ha Hb. by apply (Hd (S i) (S j) a b); [lia|..].
  - intros [Hall Hd] i j a b Hij Ha Hb.
    destruct j as [|j]; [lia|]. cbn in Hb. destruct i as [|i].
    + injection Ha as <-. by apply (proj1 (Forall_lookup _ _) Hall j b).
    + cbn in Ha. by apply (Hd i j a b); [lia|..].
Qed.

Lemma insert_desc_perm (x : A) (l : list A) : insert_desc key x l ≡ₚ x :: l.
Proof.
  induction l as [|y l IH]; [done|]. cbn [insert_desc].
  case_bool_decide; [done|]. rewrite IH. apply Permutation_swap.
Qed.

Lemma sort_desc_perm (l : list A) : sort_desc key l ≡ₚ l.
Proof.
  induction l as [|x l IH]; [done|]. cbn [sort_desc foldr].
  rewrite insert_desc_perm. by f_equiv.
Qed.

Lemma insert_desc_descending (x : A) (l : list A) :
  descending key l → descending key (insert_desc key x l).
Proof.
  induction l as [|y l IH]; intros Hd; cbn [insert_desc].
  - apply descending_cons. split; [done|]. intros i j a b _ Ha.
    by destruct i.
  - apply descending_cons in Hd as [Hall Hd].
    case_bool_decide as Hle.
    + apply descending_cons. split.
      * constructor; [done|]. eapply Forall_impl; [exact Hall|].
        intros z Hz. cbn beta in Hz. lia.
      * apply descending_cons. by split.
    + apply descending_cons. split; [|by apply IH].
      rewrite insert_desc_perm. constructor; [lia|done].
Qed.

Lemma sort_desc_descending (l : list A) : descending key (sort_desc key l).
Proof.
  induction l as [|x l IH].
  - intros i j a b _ Ha. by destruct i.
  - cbn [sort_desc foldr]. by apply insert_desc_descending.
Qed.

Lemma insert_desc_filter (n : Z) (x : A) (l : list A) :
  filter (λ y, key y = n) (insert_desc key x l)
  = filter (λ y, key y = n) (x :: l).
Proof.
  induction l as [|y l IH]; [done|]. cbn [insert_desc].
  case_bool_decide as Hle; [done|].
  rewrite (filter_cons _ y), IH, !filter_cons.
  destruct (decide (key x = n)) as [Hx|Hx]; [|done].
  destruct (decide (key y = n)) as [Hy|Hy]; [lia|done].
Qed.

Lemma sort_desc_filter (n : Z) (l : list A) :
  filter (λ y, key y = n) (sort_desc key l) = filter (λ y, key y = n) l.
Proof.
  induction l as [|x l IH]; [done|]. cbn [sort_desc foldr].
  rewrite insert_desc_filter, !filter_cons. fold (sort_desc key l).
  by rewrite IH.
Qed.

End Sorting.

(** X18. Whatever the [sort] argument, the home page shows the bots the
    query returned, each as often as it was returned. *)
Theorem index_order_permutation (sort_by : string) (bots : list Bot.t) :
  index_order sort_by bots ≡ₚ bots.
Proof.
  unfold index_order. case_bool_decide; [apply reverse_Permutation|].
  case_bool_decide; [apply sort_desc_perm|done].
Qed.

(** X19. Sorted by popularity, the bots come in non-increasing order of
    their upvote count, a missing count being 0, and bots with the same
    count keep the order of the query; "oldest" is the query order
    backwards and any other value the query order. *)
Theorem index_order_popular (sort_by : string) (bots : list Bot.t) :
  (sort_by = "popular" →
   descending popularity (index_order sort_by bots)
   ∧ ∀ n, filter (λ b, popularity b = n) (index_order sort_by bots)
          = filter (λ b, popularity b = n) bots)
  ∧ (sort_by = "oldest" → index_order sort_by bots = reverse bots)
  ∧ (sort_by ≠ "popular" → sort_by ≠ "oldest" →
     index_order sort_by bots = bots).
Proof.
  unfold index_order. split; [|split].
  - intros ->. rewrite bool_decide_eq_false_2 by done.
    rewrite bool_decide_eq_true_2 by done.
    split; [apply sort_desc_descending|]. intros n. apply sort_desc_filter.
  - intros ->. by rewrite bool_decide_eq_true_2.
  - intros Hp Ho. by rewrite !bool_decide_eq_false_2.
Qed.

Lemma index_order_popular_witness :
  Bot.id <$> index_order "popular"
    [sample_bot "a" PyNone (Some 2); sample_bot "b" PyNone None;
     sample_bot "c" PyNone (Some 5); sample_bot "d" PyNone (Some 2);
     sample_bot "e" PyNone (Some 0)]
  = ["c"; "a"; "d"; "b"; "e"]
  ∧ descending popularity
      (index_order "popular"
         [sample_bot "a" PyNone (Some 2); sample_bot "b" PyNone None;
          sample_bot "c" PyNone (Some 5); sample_bot "d" PyNone (Some 2);
          sample_bot "e" PyNone (Some 0)]).
Proof.
  split; [reflexivity|].
  by apply (index_order_popular "popular").
Defined.

(** ** The edit form after an edit *)

Lemma can_edit_bot_same_owner (admin_id : option string) (b b' : Bot.t)
    (user : option User) :
  Bot.owner_id b' = Bot.owner_id b →
  can_edit_bot admin_id (Some b') user = can_edit_bot admin_id (Some b) user.
Proof.
  intros Hown. unfold can_edit_bot, is_bot_owner. by rewrite Hown.
Qed.

Lemma edit_bot_get (admin_id : option string) (py_int : string → option Z)
    (session : option User) (method : string) (form : Form)
    (bot_id : string) (s : State) (bot : Bot.t) :
  db s !! bot_id = Some bot →
  can_edit_bot admin_id (Some bot) session = true →
  method ≠ "POST" →
  edit_bot admin_id py_int session method form bot_id s
  = (Ok (RenderEdit bot predefined_tags (bot_tags (Bot.tags bot)) session
           (is_admin admin_id session)), s).
Proof.
  intros Hbot Hcan Hget. unfold edit_bot.
  destruct session as [u|]; [|discriminate Hcan]. rewrite Hbot. cbv zeta.
  rewrite Hcan. cbn [negb]. by rewrite bool_decide_eq_false_2.
Qed.

(** X20. What was saved is what the form shows next: after a POST that
    [edit_bot] accepts from an actor who may edit the bot, the row holds the
    submitted description and the joined tags, and a following GET by the
    same actor renders the edit form with the stored row and, for tags
    without commas other than the single empty tag, with the submitted list
    of tags. *)
Theorem edited_listing_shown (admin_id : option string)
    (py_int : string → option Z) (session : option User) (form : Form)
    (bot_id : string) (s : State) (bot : Bot.t) (method' : string)
    (form' : Form) :
  db s !! bot_id = Some bot →
  can_edit_bot admin_id (Some bot) session = true →
  (∀ e, (edit_bot admin_id py_int session "POST" form bot_id s).1 ≠ Err e) →
  method' ≠ "POST" →
  let s' := (edit_bot admin_id py_int session "POST" form bot_id s).2 in
  ∃ b', db s' !! bot_id = Some b'
        ∧ Bot.description b' = form_get form "description"
        ∧ Bot.tags b' = Some (join_comma (form_getlist form "tags"))
        ∧ (Forall (λ x, comma_free x = true) (form_getlist form "tags") →
           form_getlist form "tags" ≠ [""] →
           edit_bot admin_id py_int session method' form' bot_id s'
           = (Ok (RenderEdit b' predefined_tags (form_getlist form "tags")
                    session (is_admin admin_id session)),
              s')).
Proof.
  intros Hbot Hcan Hok Hget s'.
  assert (∃ b', db s' !! bot_id = Some b'
                ∧ Bot.description b' = form_get form "description"
                ∧ Bot.tags b' = Some (join_comma (form_getlist form "tags"))
                ∧ Bot.owner_id b' = Bot.owner_id bot)
    as (b' & Hb' & Hdesc & Htags & Hown).
  { subst s'. revert Hok. unfold edit_bot.
    destruct session as [u|]; [|discriminate Hcan]. rewrite Hbot. cbv zeta.
    rewrite Hcan. cbn [negb]. rewrite bool_decide_eq_true_2 by done.
    destruct (is_admin admin_id (Some u)).
    - destruct (form_server_count py_int form) as [n|e];
        [|intros H; by destruct (H e)].
      destruct (fits_integer n); [|intros H; by destruct (H OverflowError)].
      intros _. cbn [snd flash with_db db]. rewrite lookup_insert_eq.
      by eexists.
    - intros _. cbn [snd flash with_db db]. rewrite lookup_insert_eq.
      by eexists. }
  exists b'. split; [exact Hb'|]. split; [exact Hdesc|]. split; [exact Htags|].
  intros Hfree Hne.
  rewrite (edit_bot_get admin_id py_int session method' form' bot_id s' b' Hb');
    [|by rewrite (can_edit_bot_same_owner admin_id bot b' session Hown)|done].
  rewrite Htags. do 3 f_equal.
  unfold bot_tags, str_truthy, opt_str. case_bool_decide as Hj.
  - apply split_join_comma; [|done]. by intros Hnil; rewrite Hnil in Hj.
  - destruct (join_comma_empty _ Hj) as [Hnil|Hone]; [by rewrite Hnil|].
    by destruct Hne.
Qed.

Lemma edited_listing_shown_witness :
  ∃ b', edit_bot None digits_int (Some (sample_user (PyStr "U2"))) "GET" ∅ "B1"
          (edit_bot None digits_int (Some (sample_user (PyStr "U2"))) "POST"
             sample_form "B1" state0).2
        = (Ok (RenderEdit b' predefined_tags ["Music"; "Fun"]
                 (Some (sample_user (PyStr "U2"))) false),
           (edit_bot None digits_int (Some (sample_user (PyStr "U2"))) "POST"
              sample_form "B1" state0).2).
Proof.
  destruct (edited_listing_shown None digits_int
              (Some (sample_user (PyStr "U2"))) sample_form "B1" state0
              (sample_bot "B1" (PyStr "U2") (Some 7)) "GET" ∅)
    as (b' & _ & _ & _ & Hshown); [reflexivity|reflexivity|done|done|].
  exists b'. apply Hshown; [repeat constructor|discriminate].
Defined.

(** ** Bot information and the session *)

(** X21. [api_fetch_bot_info] answers 200 exactly for a logged-in caller
    when Discord answered 200 for an account flagged as a bot; the answer
    then carries Discord's user name and an avatar address that is never
    empty: the CDN address of the avatar hash, or the default avatar when
    the hash is missing or empty. Every other answer is an error body, 401
    for a caller without a session. *)
Theorem api_fetch_bot_info_answer (session : option User) (bot_id : string)
    (r : HttpReply) :
  let body := (api_fetch_bot_info session bot_id r).1 in
  let status := (api_fetch_bot_info session bot_id r).2 in
  (status = 200
   ↔ is_Some session ∧ status_code r = 200
     ∧ py_truthy (dict_get (json r) "bot") = true)
  ∧ (status = 200 →
     ∃ url, body = InfoBot (dict_get (json r) "username") url
            ∧ url ≠ ""
            ∧ (py_truthy (dict_get (json r) "avatar") = false →
               url = "https://cdn.discordapp.com/embed/avatars/0.png")
            ∧ (py_truthy (dict_get (json r) "avatar") = true →
               url = "https://cdn.discordapp.com/avatars/" +:+ bot_id +:+ "/"
                     +:+ py_str (dict_get (json r) "avatar") +:+ ".png"))
  ∧ (status ≠ 200 → ∃ msg, body = InfoError msg)
  ∧ (session = None → status = 401).
Proof.
  cbv zeta. unfold api_fetch_bot_info.
  destruct session as [u|].
  - case_bool_decide as Hst.
    + cbn [fst snd]. split; [split; [done|by intros (_ & ? & _)]|].
      split; [done|]. split; [by eexists|done].
    + idtac.
      destruct (py_truthy (dict_get (json r) "bot")) eqn:Hbot; cbn [negb].
      * cbn [fst snd]. split; [by split; [eexists|]|].
        split; [|split; [done|done]]. intros _. unfold cdn_url.
        destruct (py_truthy (dict_get (json r) "avatar")); cbn.
        -- eexists. split; [reflexivity|]. by split.
        -- eexists. split; [reflexivity|]. by split.
      * cbn [fst snd]. split; [split; [done|by intros (_ & _ & ?)]|].
        split; [done|]. split; [by eexists|done].
  - cbn [fst snd]. split; [split; [done|by intros ([? ?] & _)]|].
    split; [done|]. split; [by eexists|done].
Qed.

(** X22. [callback] replaces the session user only when a code came with
    the request, Discord answered both requests with 200 and the token
    reply had an access token; the user is then the JSON of the second
    reply. In every other case whoever was logged in stays logged in.
    [logout] leaves no user, so that [upvote_bot] answers 401 afterwards.
    Neither touches the table or the cooldown store. *)
Theorem session_lifecycle (code : option string)
    (token_reply user_reply : HttpReply) (session : option User) (s : State) :
  let session' := (callback code token_reply user_reply session s).1.2 in
  let s' := (callback code token_reply user_reply session s).2 in
  let granted :=
    str_truthy code = true ∧ status_code token_reply = 200
    ∧ is_Some (json token_reply !! "access_token")
    ∧ status_code user_reply = 200 in
  (granted → session' = Some (json user_reply))
  ∧ (¬ granted → session' = session)
  ∧ db s' = db s ∧ user_votes s' = user_votes s
  ∧ (logout session' s').1.2 = None
  ∧ db (logout session' s').2 = db s
  ∧ user_votes (logout session' s').2 = user_votes s
  ∧ (∀ bot_id now,
       status_of (upvote_bot (logout session' s').1.2 bot_id now
                    (logout session' s').2).1 = Some 401).
Proof.
  cbv zeta. unfold callback.
  destruct (str_truthy code) eqn:Hcode; cbn [negb].
  - case_bool_decide as Htok.
    + cbn. split; [by intros (_ & ? & _)|]. done.
    + idtac.
      destruct (json token_reply !! "access_token") as [tok|] eqn:Hacc.
      * case_bool_decide as Husr.
        -- cbn. split; [by intros (_ & _ & _ & ?)|]. done.
        -- cbn.
           split; [done|]. split; [|done]. intros Hno. destruct Hno.
           split; [done|]. split; [done|]. split; [by eexists|done].
      * cbn. split; [by intros (_ & _ & [? ?] & _)|]. done.
  - cbn. split; [by intros (? & _)|]. done.
Qed.

(** ** Two voters at once *)

Section TwoVoters.

Variables (u1 u2 : User) (uid1 uid2 : PyVal) (bot_id : string) (bot : Bot.t).
Variables (now1 now2 : Z) (s : State).

Hypothesis Hid1 : u1 !! "id" = Some uid1.
Hypothesis Hid2 : u2 !! "id" = Some uid2.
Hypothesis Hother : vote_key uid1 (PyStr bot_id) ≠ vote_key uid2 (PyStr bot_id).
Hypothesis Hbot : db s !! bot_id = Some bot.
Hypothesis Hfits : fits_integer (or_zero (Bot.upvotes bot) + 1) = true.
Hypothesis Hfresh1 : user_votes s !! vote_key uid1 (PyStr bot_id) = None.
Hypothesis Hfresh2 : user_votes s !! vote_key uid2 (PyStr bot_id) = None.

(** The second of two votes served in turn finds the count raised by one. *)
Lemma fits_second_vote :
  fits_integer (or_zero (Bot.upvotes bot) + 2) = true →
  fits_integer
    (or_zero (Bot.upvotes (Bot.set_upvotes bot (or_zero (Bot.upvotes bot) + 1)))
     + 1) = true.
Proof.
  intros Hfits2. cbn [Bot.set_upvotes Bot.upvotes or_zero].
  by replace (or_zero (Bot.upvotes bot) + 1 + 1)
    with (or_zero (Bot.upvotes bot) + 2) by lia.
Qed.

Ltac reduce_run :=
  cbn [run sched_step upvote_step pc1 pc2 shared].

Ltac read_step u uid Hid :=
  erewrite (upvote_read_logged_in u uid _ _ _ _ Hid);
    [|first [exact Hbot | cbn [db]; apply lookup_insert_eq]];
  cbn [user_votes];
  first [rewrite Hfresh1 | rewrite Hfresh2
        | rewrite lookup_insert_ne by done; first [rewrite Hfresh1 | rewrite Hfresh2]
        | rewrite lookup_insert_ne by (by apply not_eq_sym);
          first [rewrite Hfresh1 | rewrite Hfresh2]];
  reduce_run.

Ltac write_step := rewrite check_write_free by done; reduce_run.

Ltac thread_1 := first [read_step u1 uid1 Hid1 | write_step].
Ltac thread_2 := first [read_step u2 uid2 Hid2 | write_step].

Lemma two_voters_serial :
  fits_integer (or_zero (Bot.upvotes bot) + 2) = true →
  let c := run [T1; T1; T2; T2]
             (mkConfig s (AtEntry (Some u1) bot_id now1)
                         (AtEntry (Some u2) bot_id now2)) in
  accepted (pc1 c) = true ∧ accepted (pc2 c) = true
  ∧ Bot.upvotes <$> db (shared c) !! bot_id
    = Some (Some (or_zero (Bot.upvotes bot) + 2)).
Proof.
  intros Hfits2. cbv zeta. reduce_run. thread_1. thread_1. thread_2.
  rewrite check_write_free by (done || by apply fits_second_vote). reduce_run.
  cbn [db]. rewrite lookup_insert_eq. cbn.
  split; [done|]. split; [done|]. do 2 f_equal. lia.
Qed.

Lemma two_voters_overlapping (schedule : list Tid) :
  schedule ∈ [[T1; T2; T1; T2]; [T1; T2; T2; T1];
              [T2; T1; T1; T2]; [T2; T1; T2; T1]] →
  let c := run schedule
             (mkConfig s (AtEntry (Some u1) bot_id now1)
                         (AtEntry (Some u2) bot_id now2)) in
  accepted (pc1 c) = true ∧ accepted (pc2 c) = true
  ∧ Bot.upvotes <$> db (shared c) !! bot_id
    = Some (Some (or_zero (Bot.upvotes bot) + 1)).
Proof.
  intros Hin. cbv zeta.
  repeat (apply elem_of_cons in Hin as [->|Hin]);
    [| | | |by apply elem_of_nil in Hin]; reduce_run.
  - thread_1. thread_2. thread_1. thread_2.
    cbn [db]. by rewrite lookup_insert_eq.
  - thread_1. thread_2. thread_2. thread_1.
    cbn [db]. by rewrite lookup_insert_eq.
  - thread_2. thread_1. thread_1. thread_2.
    cbn [db]. by rewrite lookup_insert_eq.
  - thread_2. thread_1. thread_2. thread_1.
    cbn [db]. by rewrite lookup_insert_eq.
Qed.

End TwoVoters.

(** X23. Votes can be lost: when two different actors, neither on
    cooldown, vote for the same bot, whose count plus one fits the column,
    and the two requests overlap (both read the row before either commits),
    both are answered 200 and the stored count grows by one only; served
    one after the other, the count grows by two when the column holds
    it. *)
Theorem overlapping_upvotes_lose_a_vote (u1 u2 : User) (uid1 uid2 : PyVal)
    (bot_id : string) (bot : Bot.t) (now1 now2 : Z) (s : State)
    (schedule : list Tid) :
  u1 !! "id" = Some uid1 →
  u2 !! "id" = Some uid2 →
  vote_key uid1 (PyStr bot_id) ≠ vote_key uid2 (PyStr bot_id) →
  db s !! bot_id = Some bot →
  fits_integer (or_zero (Bot.upvotes bot) + 1) = true →
  user_votes s !! vote_key uid1 (PyStr bot_id) = None →
  user_votes s !! vote_key uid2 (PyStr bot_id) = None →
  schedule ≡ₚ [T1; T1; T2; T2] →
  let c := run schedule (mkConfig s (AtEntry (Some u1) bot_id now1)
                                    (AtEntry (Some u2) bot_id now2)) in
  (serial schedule = false →
   accepted (pc1 c) = true ∧ accepted (pc2 c) = true
   ∧ Bot.upvotes <$> db (shared c) !! bot_id
     = Some (Some (or_zero (Bot.upvotes bot) + 1)))
  ∧ (schedule = [T1; T1; T2; T2] →
     fits_integer (or_zero (Bot.upvotes bot) + 2) = true →
     accepted (pc1 c) = true ∧ accepted (pc2 c) = true
     ∧ Bot.upvotes <$> db (shared c) !! bot_id
       = Some (Some (or_zero (Bot.upvotes bot) + 2))).
Proof.
  intros Hid1 Hid2 Hother Hbot Hfits Hfresh1 Hfresh2 Hperm c. split.
  - intros Hser. apply interleavings_of_two in Hperm.
    apply elem_of_cons in Hperm as [->|Hperm]; [discriminate Hser|].
    apply elem_of_cons in Hperm as [->|Hperm]; [discriminate Hser|].
    by apply (two_voters_overlapping u1 u2 uid1 uid2 bot_id bot now1 now2 s).
  - intros Heq Hfits2. subst c. rewrite Heq.
    by apply (two_voters_serial u1 u2 uid1 uid2 bot_id bot now1 now2 s).
Qed.

Lemma overlapping_upvotes_lose_a_vote_witness :
  let c := run [T1; T2; T1; T2]
             (mkConfig state0
                (AtEntry (Some (sample_user (PyStr "U1"))) "B1" 1000)
                (AtEntry (Some (sample_user (PyStr "U3"))) "B1" 1001)) in
  accepted (pc1 c) = true ∧ accepted (pc2 c) = true
  ∧ Bot.upvotes <$> db (shared c) !! "B1" = Some (Some 8).
Proof.
  cbv zeta.
  destruct (overlapping_upvotes_lose_a_vote (sample_user (PyStr "U1"))
              (sample_user (PyStr "U3")) (PyStr "U1") (PyStr "U3") "B1"
              (sample_bot "B1" (PyStr "U2") (Some 7)) 1000 1001 state0
              [T1; T2; T1; T2]) as [Hover _];
    try reflexivity; [discriminate|apply perm_skip, perm_swap|].
  by apply Hover.
Defined.
